(** * XSTOOLs board layer ([xstools/xsboard.py]) in Rocq

    A shallow embedding of the board classes of XSTOOLs: board
    identification ([XsBoard.get_xsboard]), the checksum-protected
    information frame ([XulaMicro.get_board_info]), the diagnostic
    polling loop ([XulaBase.do_self_test]) and the configuration-flash
    workflows with their flag bracketing on XuLA boards.

    Python methods become functions in a small monad that threads the
    hardware-side state and carries Python exceptions.  The USB link, the
    JTAG port, the microcontroller, the FPGA and the flash are outside of
    [xsboard.py]; they appear as a record of answers ([hardware]) and every
    call made on them is written to a trace. *)

From Stdlib Require Import ZArith List String Ascii Bool Lia QArith.
From Stdlib Require Import DecimalString HexadecimalString.
Import ListNotations.

Local Open Scope string_scope.
Local Open Scope Z_scope.

(** ** Exceptions *)

(** Modelled from the spec: the exception classes live in
    [xstools/xserror.py], which is not among the sources.  The spec knows
    hardware errors of two kinds, fatal ("major") and recoverable ("minor");
    [xsboard.py] imports [XsError], [XsMajorError] and [XsMinorError] and
    catches the first around code that raises the other two
    ([is_connected] around [get_board_fmw_version]), so both kinds are
    subclasses of [XsError].  The remaining constructors are Python's own
    exceptions, which are no [XsError]. *)
Inductive exn : Type :=
| XsError (msg : string)
| XsMinorError (msg : string)
| XsMajorError (msg : string)
| IndexError (msg : string)
| ValueError (msg : string)
| AttributeError (msg : string)
| OtherException (msg : string).

(** [isinstance(e, XsError)], the test of every [except XsError:] clause. *)
Definition isinstance_XsError (e : exn) : bool :=
  match e with
  | XsError _ | XsMinorError _ | XsMajorError _ => true
  | _ => false
  end.

Definition is_XsMajorError (e : exn) : bool :=
  match e with XsMajorError _ => true | _ => false end.

(** ** The boards' outside world *)

Inductive fpga_kind : Type :=
| Xc3s50avq100 | Xc3s200avq100 | Xc6slx25ftg256 | Xc6slx9ftg256.

(** The result of [dut.read()] with [dut_output_widths=[2,1,32]]: the
    unsigned values of the three fields. *)
Record frame : Type := mkFrame {
  progress : Z;
  failed : Z;
  signature : Z
}.

(** Calls that leave [xsboard.py], in the order the trace records them. *)
Inductive call : Type :=
| XsUsb_new (xsusb_id : Z)
| XsJtag_new
| Pic18f14k50_new
| Fpga_new (k : fpga_kind)
| xsusb_reset
| xsusb_get_info
| xsusb_set_prog (level : Z)
| time_sleep
| fpga_is_connected (k : fpga_kind)
| fpga_configure (k : fpga_kind) (bitstream : string)
| micro_get_cfg_flash_flag
| micro_enable_cfg_flash
| micro_set_cfg_flash_flag (flag : Z)
| XsDutIo_new (module_id : Z)
| dut_write (v : Z)
| dut_read
| W25X_new (module_id : Z)
| cfg_flash_read (bottom top : Z)
| cfg_flash_erase
| cfg_flash_write (hexfile : list Z) (bottom top : option Z)
| pub_sendMessage (phase : string).

(** Modelled from the spec: the collaborators of §6 ([XsUsb], [XsJtag],
    [Pic18f14k50], the FPGA classes, [XsDutIo], [W25X]) are not among the
    sources.  A [hardware] fixes what they answer: whether the call issued
    after [n] earlier calls raises, the information frame of the [n]-th
    answered [get_info], the frame of the [n]-th answered [dut.read], what
    the FPGA's connectivity check says and what a flash read returns.
    [install_dir] is [xstools.install_dir]. *)
Record hardware : Type := mkHardware {
  install_dir : string;
  hw_fault : nat -> call -> option exn;
  hw_info : nat -> list Z;
  hw_dut : nat -> frame;
  hw_fpga_connected : nat -> fpga_kind -> bool;
  hw_flash_data : Z -> Z -> list Z
}.

(** What the calls have changed so far: the trace (oldest call first), how
    many information frames and self-test frames were delivered, and the
    microcontroller's configuration-flash enable flag. *)
Record state : Type := mkState {
  trace : list call;
  fetches : nat;
  polls : nat;
  cfg_flash_flag : Z
}.

Definition initial_state (flag : Z) : state :=
  {| trace := []; fetches := 0; polls := 0; cfg_flash_flag := flag |}.

(** ** The monad: state, Python exceptions, and fuel for [while True] *)

Inductive result (A : Type) : Type :=
| Ok (a : A)
| Raise (e : exn)
| OutOfFuel.
Arguments Ok {A} a.
Arguments Raise {A} e.
Arguments OutOfFuel {A}.

Definition M (A : Type) : Type := state -> result A * state.

Definition ret {A} (a : A) : M A := fun s => (Ok a, s).

Definition raise {A} (e : exn) : M A := fun s => (Raise e, s).

Definition bind {A B} (m : M A) (f : A -> M B) : M B :=
  fun s =>
    match m s with
    | (Ok a, s') => f a s'
    | (Raise e, s') => (Raise e, s')
    | (OutOfFuel, s') => (OutOfFuel, s')
    end.

(** [try: m except XsError: h] *)
Definition try_except_XsError {A} (m : M A) (h : M A) : M A :=
  fun s =>
    match m s with
    | (Raise e, s') =>
        if isinstance_XsError e then h s' else (Raise e, s')
    | r => r
    end.

Declare Scope py_scope.
Delimit Scope py_scope with py.
Notation "x <- m ;; k" := (bind m (fun x => k))
  (at level 61, m at next level, right associativity) : py_scope.
Notation "m ;;; k" := (bind m (fun _ => k))
  (at level 61, right associativity) : py_scope.
Local Open Scope py_scope.

Definition log (c : call) (s : state) : state :=
  {| trace := trace s ++ [c];
     fetches := fetches s;
     polls := polls s;
     cfg_flash_flag := cfg_flash_flag s |}.

(** ** Python helpers used by the methods *)

(** [sum(info)] *)
Definition sum (l : list Z) : Z := fold_left Z.add l 0.

(** [a[i]] on an array: [IndexError] out of range. *)
Definition getitem (a : list Z) (i : nat) : M Z :=
  match nth_error a i with
  | Some v => ret v
  | None => raise (IndexError "array index out of range")
  end.

(** [a.index(x)]: position of the first [x], [None] where Python raises
    [ValueError]. *)
Fixpoint index (x : Z) (a : list Z) : option nat :=
  match a with
  | [] => None
  | y :: r => if y =? x then Some O else option_map S (index x r)
  end.

(** [a.tostring()] on an array of unsigned bytes. *)
Fixpoint tostring (a : list Z) : string :=
  match a with
  | [] => EmptyString
  | b :: r => String (ascii_of_N (Z.to_N b)) (tostring r)
  end.

Definition zero_pad (width : nat) (digits : string) : string :=
  String.concat "" (repeat "0" (width - String.length digits)) ++ digits.

(** ['%02x' % n]: lower-case hexadecimal, padded with zeros to two
    characters, the sign counting as one. *)
Definition fmt_02x (n : Z) : string :=
  if n <? 0
  then "-" ++ zero_pad 1 (HexadecimalString.NilZero.string_of_uint
                            (N.to_hex_uint (Z.abs_N n)))
  else zero_pad 2 (HexadecimalString.NilZero.string_of_uint
                     (N.to_hex_uint (Z.to_N n))).

(** ['%d' % n] *)
Definition fmt_d (n : Z) : string :=
  DecimalString.NilZero.string_of_int (Z.to_int n).

Definition digit_of_ascii (c : ascii) : option Z :=
  let n := Z.of_nat (nat_of_ascii c) in
  if (48 <=? n) && (n <=? 57) then Some (n - 48) else None.

(** Reads a run of decimal digits: its value, its length and what follows. *)
Fixpoint read_digits (s : string) (acc : Z) (cnt : nat) : Z * nat * string :=
  match s with
  | String c r =>
      match digit_of_ascii c with
      | Some d => read_digits r (10 * acc + d) (S cnt)
      | None => (acc, cnt, s)
      end
  | EmptyString => (acc, cnt, s)
  end.

(** [float(s)] on the strings that ['%d.%d'] produces, as an exact
    rational; [None] where Python raises [ValueError].  The value is only
    ever compared with the literal [1.2]; a version string has at most
    three fractional digits, so it is at least a thousandth away from 1.2
    or equal to it, and rounding both sides to doubles keeps the order. *)
Definition float (s : string) : option Q :=
  let (neg, s1) :=
    match s with
    | String "-"%char r => (true, r)
    | _ => (false, s)
    end in
  let '(ip, n1, s2) := read_digits s1 0 0 in
  match s2 with
  | String "."%char s3 =>
      let '(fp, n2, s4) := read_digits s3 0 0 in
      match s4 with
      | EmptyString =>
          if Nat.eqb (n1 + n2) 0 then None
          else
            let den := 10 ^ Z.of_nat n2 in
            let num := ip * den + fp in
            Some (Qmake (if neg then - num else num) (Z.to_pos den))
      | _ => None
      end
  | EmptyString =>
      if Nat.eqb n1 0 then None
      else Some (Qmake (if neg then - ip else ip) 1)
  | _ => None
  end.

(** [a < b] on versions. *)
Definition Qltb (a b : Q) : bool :=
  Qnum a * Zpos (Qden b) <? Qnum b * Zpos (Qden a).

Definition lower_ascii (c : ascii) : ascii :=
  let n := nat_of_ascii c in
  if (Nat.leb 65 n && Nat.leb n 90)%bool then ascii_of_nat (n + 32) else c.

(** [s.lower()] *)
Fixpoint lower (s : string) : string :=
  match s with
  | EmptyString => EmptyString
  | String c r => String (lower_ascii c) (lower r)
  end.

(** [os.path.join(a, b)] for a relative [b]. *)
Definition path_join (a b : string) : string := a ++ "/" ++ b.

(** ** Board classes *)

(** The classes [get_xsboard] can instantiate. *)
Inductive board_class : Type :=
| XulaOldFmw | Xula50 | Xula200 | Xula2lx25 | Xula2lx9 | XulaNoJtag.

Definition Xula_name : string := "XuLA".
Definition Xula2_name : string := "XuLA2".

(** The class attribute [name]. *)
Definition name (c : board_class) : string :=
  match c with
  | XulaOldFmw => "XuLA UNKNOWN"
  | Xula50 => Xula_name ++ "-50"
  | Xula200 => Xula_name ++ "-200"
  | Xula2lx25 => Xula2_name ++ "-LX25"
  | Xula2lx9 => Xula2_name ++ "-LX9"
  | XulaNoJtag => "XuLA UNKNOWN"
  end.

(** The attribute [fpga] set by [__init__], where the class has one. *)
Definition fpga (c : board_class) : option fpga_kind :=
  match c with
  | Xula50 => Some Xc3s50avq100
  | Xula200 => Some Xc3s200avq100
  | Xula2lx25 => Some Xc6slx25ftg256
  | Xula2lx9 => Some Xc6slx9ftg256
  | XulaOldFmw | XulaNoJtag => None
  end.

(** A board object: its class and the USB port it was built for. *)
Record instance : Type := mkInstance {
  cls : board_class;
  xsusb_id : Z
}.

(** The dictionary [get_board_info] returns. *)
Record board_info : Type := mkBoardInfo {
  ID : string;
  VERSION : string;
  DESCRIPTION : string
}.

(** IDs for HostIo modules. *)
Definition _TEST_MODULE_ID : Z := 1.
Definition _CFG_FLASH_MODULE_ID : Z := 2.
Definition _SDRAM_MODULE_ID : Z := 3.

Definition BASE_SIGNATURE : Z := 0xA50000A5.
Definition SELF_TEST_SIGNATURE : Z := Z.lor BASE_SIGNATURE (Z.shiftl 1 8).
Definition TEST_START : Z := 0.
Definition TEST_WRITE : Z := 1.
Definition TEST_READ : Z := 2.
Definition TEST_DONE : Z := 3.

(** ** The methods of [xsboard.py] *)

Section Program.

Variable hw : hardware.

(** Modelled from the spec: a call on one of the absent collaborators
    that returns nothing of interest.  It is recorded, and it raises when
    the hardware says so ("blocks until a response or transport error"). *)
Definition extcall (c : call) : M unit :=
  fun s =>
    match hw_fault hw (List.length (trace s)) c with
    | Some e => (Raise e, log c s)
    | None => (Ok tt, log c s)
    end.

(** Modelled from the spec: [pub.sendMessage(_PHASE, phase=...)] of the
    absent [pubsub], the ProgressReporter's [publish]: fire and forget, it
    never raises. *)
Definition sendMessage (phase : string) : M unit :=
  fun s => (Ok tt, log (pub_sendMessage phase) s).

(** [time.sleep(0.03)]: recorded, without a duration. *)
Definition sleep : M unit :=
  fun s => (Ok tt, log time_sleep s).

(** Modelled from the spec: [self.xsusb.get_info()] of the absent
    [xsusb.py], DeviceLink's [fetchInfoFrame]: a transport error, or the
    next information frame. *)
Definition get_info : M (list Z) :=
  fun s =>
    match hw_fault hw (List.length (trace s)) xsusb_get_info with
    | Some e => (Raise e, log xsusb_get_info s)
    | None =>
        (Ok (hw_info hw (fetches s)),
         {| trace := trace s ++ [xsusb_get_info];
            fetches := S (fetches s);
            polls := polls s;
            cfg_flash_flag := cfg_flash_flag s |})
    end.

(** Modelled from the spec: [dut.read()] of the absent [xsdutio.py], the
    RegisterChannel's [read]: a transport error, or the next self-test
    frame. *)
Definition read : M frame :=
  fun s =>
    match hw_fault hw (List.length (trace s)) dut_read with
    | Some e => (Raise e, log dut_read s)
    | None =>
        (Ok (hw_dut hw (polls s)),
         {| trace := trace s ++ [dut_read];
            fetches := fetches s;
            polls := S (polls s);
            cfg_flash_flag := cfg_flash_flag s |})
    end.

(** Modelled from the spec: [self.fpga.is_connected()] of the absent
    [xilfpga.py]. *)
Definition fpga_connected (k : fpga_kind) : M bool :=
  fun s =>
    match hw_fault hw (List.length (trace s)) (fpga_is_connected k) with
    | Some e => (Raise e, log (fpga_is_connected k) s)
    | None =>
        (Ok (hw_fpga_connected hw (List.length (trace s)) k),
         log (fpga_is_connected k) s)
    end.

(** Modelled from the spec: [self.cfg_flash.read(bottom, top)] of the
    absent [flashdev.py], the flash driver's [read]. *)
Definition flash_read (bottom top : Z) : M (list Z) :=
  extcall (cfg_flash_read bottom top) ;;;
  ret (hw_flash_data hw bottom top).

(** Modelled from the spec: the microcontroller driver ([picmicro.py]) is
    not among the sources.  Its configuration-flash enable flag is one
    cell: [getCfgFlashFlag] ([self.micro.get_cfg_flash_flag()]) reads
    it, [enableCfgFlash] stores 1 and [set_cfg_flash_flag] stores its
    argument.  A call that raises leaves the cell as it was. *)
Definition get_cfg_flash_flag : M Z :=
  fun s =>
    match hw_fault hw (List.length (trace s)) micro_get_cfg_flash_flag with
    | Some e => (Raise e, log micro_get_cfg_flash_flag s)
    | None => (Ok (cfg_flash_flag s), log micro_get_cfg_flash_flag s)
    end.

(** Modelled from the spec: a call [c] of the microcontroller driver that
    stores [flag] in the cell. *)
Definition store_cfg_flash_flag (c : call) (flag : Z) : M unit :=
  fun s =>
    match hw_fault hw (List.length (trace s)) c with
    | Some e => (Raise e, log c s)
    | None =>
        (Ok tt,
         {| trace := trace s ++ [c];
            fetches := fetches s;
            polls := polls s;
            cfg_flash_flag := flag |})
    end.

(** Modelled from the spec: [self.micro.enable_cfg_flash()], the driver's
    [enableCfgFlash]. *)
Definition enable_cfg_flash : M unit :=
  store_cfg_flash_flag micro_enable_cfg_flash 1.

(** Modelled from the spec: [self.micro.set_cfg_flash_flag(flag)]. *)
Definition set_cfg_flash_flag (flag : Z) : M unit :=
  store_cfg_flash_flag (micro_set_cfg_flash_flag flag) flag.

(** *** class XulaMicro *)

Definition XulaMicro___init__ (id : Z) : M unit :=
  extcall (XsUsb_new id) ;;;
  extcall XsJtag_new ;;;
  extcall Pic18f14k50_new.

Definition reset : M unit := extcall xsusb_reset.

(** The first statement of [get_board_info]: the nested [try] blocks that
    bind [info]. *)
Definition fetch_info : M (list Z) :=
  try_except_XsError get_info
    (try_except_XsError (reset ;;; get_info)
       (raise (XsMajorError "Unable to get XESS board information."))).

Definition get_board_info : M board_info :=
  info <- fetch_info ;;
  if negb (Z.land (sum info) 0xff =? 0)
  then raise (XsMinorError "XESS board information is corrupted.")
  else
    i1 <- getitem info 1 ;;
    i2 <- getitem info 2 ;;
    i3 <- getitem info 3 ;;
    i4 <- getitem info 4 ;;
    let desc := skipn 5 info in
    match index 0 desc with
    | None => raise (ValueError "array.index(x): x not in list")
    | Some desc_len =>
        ret {| ID := fmt_02x i1 ++ fmt_02x i2;
               VERSION := fmt_d i3 ++ "." ++ fmt_d i4;
               DESCRIPTION := tostring (firstn desc_len desc) |}
    end.

Definition get_board_fmw_version : M Q :=
  board_info <- get_board_info ;;
  match float (VERSION board_info) with
  | Some v => ret v
  | None => raise (ValueError "invalid literal for float()")
  end.

(** [try: version = self.get_board_fmw_version() except XsError: return
    False], shared by the three [is_connected] methods; [k] is the rest of
    the method. *)
Definition with_version (k : Q -> M bool) : M bool :=
  r <- try_except_XsError
         (v <- get_board_fmw_version ;; ret (Some v))
         (ret None) ;;
  match r with
  | None => ret false
  | Some version => k version
  end.

Definition XulaMicro_is_connected (self : instance) : M bool :=
  with_version (fun version =>
    if Qltb version (12 # 10) then ret false
    else
      match fpga (cls self) with
      | Some k => fpga_connected k
      | None => ret false
      end).

(** *** class XulaOldFmw, class XulaNoJtag *)

Definition XulaOldFmw_is_connected (self : instance) : M bool :=
  with_version (fun version => ret (Qltb version (12 # 10))).

Definition XulaNoJtag_is_connected (self : instance) : M bool :=
  with_version (fun version => ret (negb (Qltb version (12 # 10)))).

(** Method resolution of [xsboard.is_connected()]. *)
Definition is_connected (self : instance) : M bool :=
  match cls self with
  | XulaOldFmw => XulaOldFmw_is_connected self
  | XulaNoJtag => XulaNoJtag_is_connected self
  | _ => XulaMicro_is_connected self
  end.

(** [c(xsusb_id)]: every class ends in [XulaMicro.__init__]; the classes
    with an FPGA then create it. *)
Definition construct (c : board_class) (id : Z) : M instance :=
  XulaMicro___init__ id ;;;
  match fpga c with
  | Some k => extcall (Fpga_new k)
  | None => ret tt
  end ;;;
  ret {| cls := c; xsusb_id := id |}.

(** *** class XsBoard *)

Definition board_classes : list board_class :=
  [XulaOldFmw; Xula50; Xula200; Xula2lx25; Xula2lx9; XulaNoJtag].

(** The first loop of [get_xsboard]; [otherwise] is what follows it. *)
Fixpoint select_by_name (xsboard_name : string) (id : Z)
    (cs : list board_class) (otherwise : M (option instance))
  : M (option instance) :=
  match cs with
  | [] => otherwise
  | c :: cs' =>
      if String.eqb (lower xsboard_name) (lower (name c))
      then xsboard <- construct c id ;; ret (Some xsboard)
      else select_by_name xsboard_name id cs' otherwise
  end.

(** The second loop of [get_xsboard] and the [return None] after it. *)
Fixpoint probe (id : Z) (cs : list board_class) : M (option instance) :=
  match cs with
  | [] => ret None
  | c :: cs' =>
      r <- try_except_XsError
             (xsboard <- construct c id ;;
              connected <- is_connected xsboard ;;
              if connected then ret (Some xsboard) else ret None)
             (ret None) ;;
      match r with
      | Some xsboard => ret (Some xsboard)
      | None => probe id cs'
      end
  end.

Definition get_xsboard (xsusb_id : option Z) (xsboard_name : string)
  : M (option instance) :=
  match xsusb_id with
  | None => ret None
  | Some id =>
      select_by_name xsboard_name id board_classes (probe id board_classes)
  end.

(** *** class XulaBase *)

Definition Xula_dir : string := path_join (install_dir hw) "xula".
Definition Xula2_dir : string := path_join (install_dir hw) "xula2".

(** The class attributes [test_bitstream] and [cfg_flash_bitstream]. *)
Definition test_bitstream (c : board_class) : option string :=
  match c with
  | Xula50 => Some (path_join Xula_dir "test_board_jtag_50.bit")
  | Xula200 => Some (path_join Xula_dir "test_board_jtag_200.bit")
  | Xula2lx25 => Some (path_join Xula2_dir "test_board_jtag_lx25.bit")
  | Xula2lx9 => Some (path_join Xula2_dir "test_board_jtag_lx9.bit")
  | XulaOldFmw | XulaNoJtag => None
  end.

Definition cfg_flash_bitstream (c : board_class) : option string :=
  match c with
  | Xula50 => Some (path_join Xula_dir "fintf_jtag_50.bit")
  | Xula200 => Some (path_join Xula_dir "fintf_jtag_200.bit")
  | Xula2lx25 => Some (path_join Xula2_dir "fintf_jtag_lx25.bit")
  | Xula2lx9 => Some (path_join Xula2_dir "fintf_jtag_lx9.bit")
  | XulaOldFmw | XulaNoJtag => None
  end.

(** Attribute lookup on [self]. *)
Definition getattr {A} (attr : string) (v : option A) : M A :=
  match v with
  | Some a => ret a
  | None => raise (AttributeError attr)
  end.

Definition configure (self : instance) (bitstream : string) : M unit :=
  sendMessage "Downloading bitstream" ;;;
  extcall (xsusb_set_prog 1) ;;;
  extcall (xsusb_set_prog 0) ;;;
  extcall (xsusb_set_prog 1) ;;;
  sleep ;;;
  k <- getattr "fpga" (fpga (cls self)) ;;
  extcall (fpga_configure k bitstream) ;;;
  sendMessage "Download complete".

(** The [while True:] loop of [do_self_test]; one unit of fuel per poll. *)
Fixpoint poll (self : instance) (fuel : nat) (prev_progress : Z) : M unit :=
  match fuel with
  | O => fun s => (OutOfFuel, s)
  | S fuel' =>
      fr <- read ;;
      if negb (signature fr =? SELF_TEST_SIGNATURE)
      then raise (XsMajorError
                    (name (cls self)
                     ++ "FPGA is not configured with diagnostic bitstream."))
      else if negb (progress fr =? prev_progress)
      then
        (if progress fr =? TEST_READ
         then sendMessage "Reading SDRAM" else ret tt) ;;;
        if failed fr =? 1
        then sendMessage "Test Done" ;;;
             raise (XsMinorError
                      (name (cls self) ++ " failed diagnostic test."))
        else if progress fr =? TEST_DONE
        then sendMessage "Test Done" ;;; ret tt
        else poll self fuel' (progress fr)
      else poll self fuel' (progress fr)
  end.

(** [do_self_test] up to its loop. *)
Definition self_test_setup (self : instance) (bitstream : option string)
  : M unit :=
  _ <- getattr "do_self_test" (fpga (cls self)) ;;
  test_bitstream <- match bitstream with
                    | None => getattr "test_bitstream"
                                (test_bitstream (cls self))
                    | Some b => ret b
                    end ;;
  sendMessage "Downloading diagostic bitstream" ;;;
  configure self test_bitstream ;;;
  extcall (XsDutIo_new _TEST_MODULE_ID) ;;;
  extcall (dut_write 1) ;;;
  extcall (dut_write 0) ;;;
  sendMessage "Writing SDRAM".

Definition do_self_test (fuel : nat) (self : instance)
    (bitstream : option string) : M unit :=
  self_test_setup self bitstream ;;;
  poll self fuel TEST_START.

(** [self.create_cfg_flash()], the same in [Xula] and [Xula2]. *)
Definition create_cfg_flash : M unit :=
  extcall (W25X_new _CFG_FLASH_MODULE_ID).

Definition XulaBase_read_cfg_flash (self : instance) (bottom top : Z)
  : M (list Z) :=
  sendMessage "Configuring FPGA for reading configuration flash" ;;;
  bitstream <- getattr "cfg_flash_bitstream"
                 (cfg_flash_bitstream (cls self)) ;;
  configure self bitstream ;;;
  sendMessage "Reading configuration flash" ;;;
  create_cfg_flash ;;;
  hex_data <- flash_read bottom top ;;
  sendMessage "Configuration flash read done" ;;;
  ret hex_data.

Definition XulaBase_write_cfg_flash (self : instance) (hexfile : list Z)
    (bottom top : option Z) : M unit :=
  sendMessage "Configuring FPGA for writing configuration flash" ;;;
  bitstream <- getattr "cfg_flash_bitstream"
                 (cfg_flash_bitstream (cls self)) ;;
  configure self bitstream ;;;
  sendMessage "Erasing configuration flash" ;;;
  create_cfg_flash ;;;
  extcall cfg_flash_erase ;;;
  sendMessage "Writing configuration flash" ;;;
  extcall (cfg_flash_write hexfile bottom top) ;;;
  sendMessage "Configuration flash write done".

Definition XulaBase_erase_cfg_flash (self : instance)
    (bottom top : option Z) : M unit :=
  sendMessage "Configuring FPGA for erasing configuration flash" ;;;
  bitstream <- getattr "cfg_flash_bitstream"
                 (cfg_flash_bitstream (cls self)) ;;
  configure self bitstream ;;;
  sendMessage "Erasing configuration flash" ;;;
  create_cfg_flash ;;;
  extcall cfg_flash_erase ;;;
  sendMessage "Configuration flash erase done".

(** *** class Xula *)

Definition Xula_read_cfg_flash (self : instance) (bottom top : Z)
  : M (list Z) :=
  cfg_flash_flag <- get_cfg_flash_flag ;;
  enable_cfg_flash ;;;
  data <- XulaBase_read_cfg_flash self bottom top ;;
  set_cfg_flash_flag cfg_flash_flag ;;;
  ret data.

Definition Xula_write_cfg_flash (self : instance) (hexfile : list Z)
    (bottom top : option Z) : M unit :=
  cfg_flash_flag <- get_cfg_flash_flag ;;
  enable_cfg_flash ;;;
  XulaBase_write_cfg_flash self hexfile bottom top ;;;
  set_cfg_flash_flag cfg_flash_flag.

Definition Xula_erase_cfg_flash (self : instance) (bottom top : option Z)
  : M unit :=
  cfg_flash_flag <- get_cfg_flash_flag ;;
  enable_cfg_flash ;;;
  XulaBase_erase_cfg_flash self bottom top ;;;
  set_cfg_flash_flag cfg_flash_flag.

(** The boards whose flash-enable flag is a toggle: the subclasses of
    [Xula].  ([Xula2] pins the flag and inherits the workflows of
    [XulaBase] unwrapped.) *)
Definition is_Xula (c : board_class) : bool :=
  match c with
  | Xula50 | Xula200 => true
  | _ => false
  end.

(** Method resolution of the three flash workflows. *)
Definition read_cfg_flash (self : instance) (bottom top : Z) : M (list Z) :=
  match cls self with
  | Xula50 | Xula200 => Xula_read_cfg_flash self bottom top
  | Xula2lx25 | Xula2lx9 => XulaBase_read_cfg_flash self bottom top
  | XulaOldFmw | XulaNoJtag => raise (AttributeError "read_cfg_flash")
  end.

Definition write_cfg_flash (self : instance) (hexfile : list Z)
    (bottom top : option Z) : M unit :=
  match cls self with
  | Xula50 | Xula200 => Xula_write_cfg_flash self hexfile bottom top
  | Xula2lx25 | Xula2lx9 => XulaBase_write_cfg_flash self hexfile bottom top
  | XulaOldFmw | XulaNoJtag => raise (AttributeError "write_cfg_flash")
  end.

Definition erase_cfg_flash (self : instance) (bottom top : option Z)
  : M unit :=
  match cls self with
  | Xula50 | Xula200 => Xula_erase_cfg_flash self bottom top
  | Xula2lx25 | Xula2lx9 => XulaBase_erase_cfg_flash self bottom top
  | XulaOldFmw | XulaNoJtag => raise (AttributeError "erase_cfg_flash")
  end.

End Program.

(** ** Vocabulary of the statements *)

(** The run of [do_self_test] started in [s] is still polling after [n]
    polls, and the poll that follows delivers [fr]. *)
Definition observes (hw : hardware) (self : instance)
    (bitstream : option string) (s : state) (n : nat) (fr : frame) : Prop :=
  exists s',
    do_self_test hw n self bitstream s = (OutOfFuel, s') /\
    hw_fault hw (List.length (trace s')) dut_read = None /\
    fr = hw_dut hw (polls s').

(** The state once [dut.read()] has delivered a frame. *)
Definition after_poll (s : state) : state :=
  {| trace := trace s ++ [dut_read];
     fetches := fetches s;
     polls := S (polls s);
     cfg_flash_flag := cfg_flash_flag s |}.

(** [s] with further calls on its trace and nothing else changed. *)
Definition extend (s : state) (t : list call) : state :=
  {| trace := trace s ++ t;
     fetches := fetches s;
     polls := polls s;
     cfg_flash_flag := cfg_flash_flag s |}.

(** A method that touches neither the counters nor the flag, and has no
    loop to run out of fuel in. *)
Definition only_logs {A} (m : M A) : Prop :=
  forall s, exists t, snd (m s) = extend s t /\ fst (m s) <> OutOfFuel.

(** [prev_progress] when the poll after [n] earlier ones is made, for a
    loop that started when [p] frames had been delivered. *)
Definition prev_progress_at (hw : hardware) (p n : nat) : Z :=
  match n with
  | O => TEST_START
  | S k => progress (hw_dut hw (p + k))
  end.

(** What a flag-bracketing flash workflow does around the plain workflow
    [body] of [XulaBase], started in [s]. *)
Definition brackets_flag {A} (hw : hardware) (workflow body : M A)
    (s : state) : Prop :=
  (forall a s',
      workflow s = (Ok a, s') ->
      cfg_flash_flag s' = cfg_flash_flag s /\
      exists s1 s2,
        trace s1 = (trace s ++ [micro_get_cfg_flash_flag;
                                micro_enable_cfg_flash])%list /\
        cfg_flash_flag s1 = 1 /\
        body s1 = (Ok a, s2) /\
        cfg_flash_flag s2 = 1 /\
        trace s' = (trace s2
                    ++ [micro_set_cfg_flash_flag (cfg_flash_flag s)])%list)
  /\
  (forall e s',
      hw_fault hw (List.length (trace s)) micro_get_cfg_flash_flag = None ->
      hw_fault hw (S (List.length (trace s))) micro_enable_cfg_flash = None ->
      workflow s = (Raise e, s') ->
      cfg_flash_flag s' = 1).

(** ** Test benches *)

Definition no_fault : nat -> call -> option exn := fun _ _ => None.

(** The frame of the spec's example, with the first byte that makes the
    checksum zero. *)
Definition sample_info : list Z := [116; 1; 2; 1; 5; 65; 66; 0].

Definition good (p : Z) : frame :=
  {| progress := p; failed := 0; signature := SELF_TEST_SIGNATURE |}.

Definition bad (p : Z) : frame :=
  {| progress := p; failed := 1; signature := SELF_TEST_SIGNATURE |}.

(** A board with an XC6SLX25 behind the given faults, information frame
    and self-test frames. *)
Definition bench (fault : nat -> call -> option exn) (info : list Z)
    (dut : nat -> frame) : hardware :=
  {| install_dir := "/opt/xstools";
     hw_fault := fault;
     hw_info := fun _ => info;
     hw_dut := dut;
     hw_fpga_connected :=
       fun _ k => match k with Xc6slx25ftg256 => true | _ => false end;
     hw_flash_data := fun _ _ => [] |}.

(** A healthy self-test: one poll per stage. *)
Definition healthy_dut (n : nat) : frame :=
  match n with
  | O => good TEST_START
  | 1%nat => good TEST_WRITE
  | 2%nat => good TEST_READ
  | _ => good TEST_DONE
  end.

(** A frame that passes the checksum and has no zero byte from offset 5 on:
    five bytes of header, the description "A", no terminator. *)
Definition unterminated_info : list Z := [182; 1; 2; 1; 5; 65].

(** The first fetch times out, and so does the reset that follows. *)
Definition reset_fails : nat -> call -> option exn :=
  fun n c =>
    match n, c with
    | O, xsusb_get_info => Some (XsError "USB timeout")
    | 1%nat, xsusb_reset => Some (XsError "USB timeout")
    | _, _ => None
    end.

(** The first fetch times out, the reset goes through and the second
    fetch times out as well. *)
Definition retry_fails : nat -> call -> option exn :=
  fun n c =>
    match n, c with
    | O, xsusb_get_info => Some (XsError "USB timeout")
    | 2%nat, xsusb_get_info => Some (XsError "USB timeout")
    | _, _ => None
    end.

(** The JTAG chain of the XC3S50A breaks down: its connectivity check
    raises the fatal error. *)
Definition idcode_fatal : nat -> call -> option exn :=
  fun _ c =>
    match c with
    | fpga_is_connected Xc3s50avq100 => Some (XsMajorError "JTAG chain broken")
    | _ => None
    end.

(** Nothing is plugged in: every fetch of the information frame and every
    reset times out. *)
Definition unplugged : nat -> call -> option exn :=
  fun _ c =>
    match c with
    | xsusb_get_info | xsusb_reset => Some (XsError "USB timeout")
    | _ => None
    end.

(** The USB port cannot be opened, and the driver says so with an
    exception of its own. *)
Definition port_busy : nat -> call -> option exn :=
  fun _ c =>
    match c with
    | XsUsb_new _ => Some (OtherException "USBError: resource busy")
    | _ => None
    end.

(** The test circuit reports a failure while still in its first stage and
    then runs to the end. *)
Definition failed_at_start_dut (n : nat) : frame :=
  match n with
  | O => bad TEST_START
  | _ => good TEST_DONE
  end.

(** The test circuit fails when it enters the write stage. *)
Definition failed_at_write_dut (n : nat) : frame :=
  match n with
  | O => good TEST_START
  | _ => bad TEST_WRITE
  end.

(** After one poll the FPGA turns out to hold another bitstream. *)
Definition wrong_bitstream_dut (n : nat) : frame :=
  match n with
  | O => good TEST_START
  | _ => {| progress := TEST_WRITE; failed := 0;
            signature := BASE_SIGNATURE |}
  end.

(** Every operation of the configuration flash times out. *)
Definition flash_fails : nat -> call -> option exn :=
  fun _ c =>
    match c with
    | cfg_flash_read _ _ | cfg_flash_erase | cfg_flash_write _ _ _ =>
        Some (XsError "flash timeout")
    | _ => None
    end.

(** ** Further methods *)

Section FlashFlag.

Variable hw : hardware.

(** [XulaMicro.get_flash_flag] *)
Definition XulaMicro_get_flash_flag : M bool :=
  flag <- get_cfg_flash_flag hw ;;
  ret (negb (flag =? 0)).

(** [Xula2.set_flash_flag], [Xula2.get_flash_flag] and
    [Xula2.toggle_flash_flag]: flash is always enabled for XuLA2. *)
Definition Xula2_set_flash_flag (flag : bool) : M bool := ret true.

Definition Xula2_get_flash_flag : M bool := ret true.

Definition Xula2_toggle_flash_flag : M bool := Xula2_get_flash_flag.

(** Method resolution of [get_flash_flag]. *)
Definition get_flash_flag (self : instance) : M bool :=
  match cls self with
  | Xula2lx25 | Xula2lx9 => Xula2_get_flash_flag
  | _ => XulaMicro_get_flash_flag
  end.

End FlashFlag.

(** ** Further vocabulary *)

(** A method without a loop: it never runs out of fuel. *)
Definition fuel_free {A} (m : M A) : Prop :=
  forall s, fst (m s) <> OutOfFuel.

(** No call on the hardware ever raises. *)
Definition quiet (hw : hardware) : Prop :=
  forall n c, hw_fault hw n c = None.

(** The bytes of an unsigned-byte array. *)
Definition is_byte (b : Z) : Prop := 0 <= b < 256.

(** The firmware versions that compare below 1.2 once ['%d.%d'] has been
    read back as a decimal fraction: 0.x, 1.0, 1.1, 1.10 to 1.19 and 1.100
    to 1.199. *)
Definition reads_below_1_2 (major minor : Z) : bool :=
  (major =? 0)
  || ((major =? 1)
      && ((minor <=? 1)
          || ((10 <=? minor) && (minor <=? 19))
          || ((100 <=? minor) && (minor <=? 199)))).

(** [s] after [m] further polls that delivered a frame each. *)
Definition after_polls (s : state) (m : nat) : state :=
  {| trace := trace s ++ repeat dut_read m;
     fetches := fetches s;
     polls := polls s + m;
     cfg_flash_flag := cfg_flash_flag s |}.

Definition Test_Done : call := pub_sendMessage "Test Done".

(** The calls that are flash operations of [W25X]. *)
Definition is_cfg_flash_write (c : call) : bool :=
  match c with cfg_flash_write _ _ _ => true | _ => false end.

Definition is_micro_call (c : call) : bool :=
  match c with
  | micro_get_cfg_flash_flag | micro_enable_cfg_flash
  | micro_set_cfg_flash_flag _ => true
  | _ => false
  end.

(** The state once [get_info] has delivered a frame. *)
Definition after_fetch (s : state) : state :=
  {| trace := trace s ++ [xsusb_get_info];
     fetches := S (fetches s);
     polls := polls s;
     cfg_flash_flag := cfg_flash_flag s |}.

(** A board with firmware 1.0 and no FPGA that answers. *)
Definition old_firmware_info : list Z := [187; 1; 2; 1; 0; 65; 0].

(** The XuLA2-LX25 of [bench] with its JTAG port switched off. *)
Definition no_jtag_bench : hardware :=
  {| install_dir := "/opt/xstools";
     hw_fault := no_fault;
     hw_info := fun _ => sample_info;
     hw_dut := healthy_dut;
     hw_fpga_connected := fun _ _ => false;
     hw_flash_data := fun _ _ => [] |}.

(** The test circuit stays in its write stage for three polls. *)
Definition slow_write_dut (n : nat) : frame :=
  match n with
  | O => good TEST_WRITE
  | 1%nat | 2%nat | 3%nat => good TEST_WRITE
  | 4%nat => good TEST_READ
  | _ => good TEST_DONE
  end.

(** Erasing the flash times out; everything else works. *)
Definition erase_fails : nat -> call -> option exn :=
  fun _ c =>
    match c with
    | cfg_flash_erase => Some (XsError "flash timeout")
    | _ => None
    end.

(** Does [float] read ['%d.%d' % (major, minor)] back, and does the value
    compare with 1.2 as [reads_below_1_2] says? *)
Definition version_check (major minor : Z) : bool :=
  match float (fmt_d major ++ "." ++ fmt_d minor) with
  | Some v => Bool.eqb (Qltb v (12 # 10)) (reads_below_1_2 major minor)
  | None => false
  end.

(** A method whose calls all satisfy [P] and that touches neither the
    counters nor the flag. *)
Definition says_only {A} (P : call -> bool) (m : M A) : Prop :=
  forall s, exists t, snd (m s) = extend s t /\ forallb P t = true.

(** The boards whose flash-enable flag is fixed: the subclasses of
    [Xula2]. *)
Definition is_Xula2 (c : board_class) : bool :=
  match c with
  | Xula2lx25 | Xula2lx9 => true
  | _ => false
  end.

(** ** Vocabulary of the probing loop and of the flag bracket *)

(** One descriptor tried by the probing loop: built, then asked whether
    it is connected. *)
Definition attempt (hw : hardware) (id : Z) (c : board_class) : M bool :=
  bind (construct hw c id) (is_connected hw).

(** The probing loop has tried every descriptor of the list, in order,
    from the first state to the second, and each one was "not this
    variant": its connectivity check answered [False], or building or
    checking it raised an [XsError]. *)
Inductive skipped (hw : hardware) (id : Z)
  : list board_class -> state -> state -> Prop :=
| skipped_nil : forall s, skipped hw id [] s s
| skipped_False : forall c cs s s1 s2,
    attempt hw id c s = (Ok false, s1) ->
    skipped hw id cs s1 s2 ->
    skipped hw id (c :: cs) s s2
| skipped_XsError : forall c cs s e s1 s2,
    attempt hw id c s = (Raise e, s1) ->
    isinstance_XsError e = true ->
    skipped hw id cs s1 s2 ->
    skipped hw id (c :: cs) s s2.

(** The state in which a flag-bracketing workflow starts the workflow of
    [XulaBase]: the flag has been read and enabled. *)
Definition flag_enabled (s : state) : state :=
  {| trace := trace s ++ [micro_get_cfg_flash_flag; micro_enable_cfg_flash];
     fetches := fetches s;
     polls := polls s;
     cfg_flash_flag := 1 |}.

(** The state a flag-bracketing workflow returns in, when the workflow of
    [XulaBase] returned in [s2]: the value saved from [s] has been written
    back, as the last call. *)
Definition flag_restored (s s2 : state) : state :=
  {| trace := trace s2 ++ [micro_set_cfg_flash_flag (cfg_flash_flag s)];
     fetches := fetches s2;
     polls := polls s2;
     cfg_flash_flag := cfg_flash_flag s |}.

(** What a flag-bracketing [workflow] does with the plain workflow [body]
    of [XulaBase], started in [s], once reading and enabling the flag went
    through: [body] runs with the flag enabled; when it returns, so does
    [workflow], with the same result and the saved flag written back;
    when it raises, [workflow] raises the same exception in the state
    [body] left, flag enabled, nothing called after. *)
Definition saves_enables_restores {A} (hw : hardware) (workflow body : M A)
    (s : state) : Prop :=
  match body (flag_enabled s) with
  | (Ok a, s2) =>
      cfg_flash_flag s2 = 1 /\
      (hw_fault hw (List.length (trace s2))
         (micro_set_cfg_flash_flag (cfg_flash_flag s)) = None ->
       workflow s = (Ok a, flag_restored s s2))
  | (Raise e, s2) =>
      workflow s = (Raise e, s2) /\ cfg_flash_flag s2 = 1
  | (OutOfFuel, _) => False
  end.

(** The class that answers first on a board that answers every call:
    [XulaOldFmw] for a version that reads below 1.2, otherwise the first
    class of the priority list whose FPGA is there, otherwise
    [XulaNoJtag]. *)
Definition first_responding (older : bool) (answers : fpga_kind -> bool)
  : board_class :=
  if older then XulaOldFmw
  else if answers Xc3s50avq100 then Xula50
  else if answers Xc3s200avq100 then Xula200
  else if answers Xc6slx25ftg256 then Xula2lx25
  else if answers Xc6slx9ftg256 then Xula2lx9
  else XulaNoJtag.

(** ** Properties of the information frame *)

Lemma land_0xff (x : Z) : Z.land x 0xff = x mod 256.
Proof. change 0xff with (Z.ones 8). now rewrite Z.land_ones by lia. Qed.

Lemma bind_Ok {A B} (m : M A) (f : A -> M B) s a s' :
  m s = (Ok a, s') -> bind m f s = f a s'.
Proof. unfold bind. now intros ->. Qed.

Lemma bind_Raise {A B} (m : M A) (f : A -> M B) s e s' :
  m s = (Raise e, s') -> bind m f s = (Raise e, s').
Proof. unfold bind. now intros ->. Qed.

(** C4: an information frame whose bytes do not sum to 0 modulo 256 makes
    [get_board_info] raise the recoverable "corrupted" error, in the state
    the fetch left; no [board_info] is returned, and the error is not the
    fatal one of a failed fetch. *)
Theorem get_board_info_checksum_failure hw s s' info :
  fetch_info hw s = (Ok info, s') ->
  sum info mod 256 <> 0 ->
  get_board_info hw s
    = (Raise (XsMinorError "XESS board information is corrupted."), s')
  /\ XsMinorError "XESS board information is corrupted."
     <> XsMajorError "Unable to get XESS board information.".
Proof.
  intros Hfetch Hsum. split; [|discriminate].
  unfold get_board_info. rewrite (bind_Ok _ _ _ _ _ Hfetch).
  rewrite land_0xff.
  destruct (Z.eqb_spec (sum info mod 256) 0) as [E|_]; [contradiction|].
  reflexivity.
Qed.

Lemma get_board_info_checksum_failure_witness :
  get_board_info (bench no_fault [1; 2; 3] healthy_dut) (initial_state 0)
  = (Raise (XsMinorError "XESS board information is corrupted."),
     {| trace := [xsusb_get_info]; fetches := 1; polls := 0;
        cfg_flash_flag := 0 |}).
Proof.
  apply (get_board_info_checksum_failure
           (bench no_fault [1; 2; 3] healthy_dut) (initial_state 0) _ [1; 2; 3]).
  - reflexivity.
  - vm_compute. discriminate.
Defined.

(** C7: for the frame [_, 0x01, 0x02, 0x01, 0x05, 'A', 'B', 0] with checksum
    zero, [get_board_info] returns ID "0102", VERSION "1.5" and DESCRIPTION
    "AB". *)
Theorem get_board_info_sample hw s s' b0 :
  fetch_info hw s = (Ok [b0; 0x01; 0x02; 0x01; 0x05; 65; 66; 0], s') ->
  sum [b0; 0x01; 0x02; 0x01; 0x05; 65; 66; 0] mod 256 = 0 ->
  get_board_info hw s
    = (Ok {| ID := "0102"; VERSION := "1.5"; DESCRIPTION := "AB" |}, s').
Proof.
  intros Hfetch Hsum.
  unfold get_board_info. rewrite (bind_Ok _ _ _ _ _ Hfetch).
  rewrite land_0xff, Hsum. reflexivity.
Qed.

Lemma get_board_info_sample_witness :
  get_board_info (bench no_fault sample_info healthy_dut) (initial_state 0)
  = (Ok {| ID := "0102"; VERSION := "1.5"; DESCRIPTION := "AB" |},
     {| trace := [xsusb_get_info]; fetches := 1; polls := 0;
        cfg_flash_flag := 0 |}).
Proof.
  apply (get_board_info_sample
           (bench no_fault sample_info healthy_dut) (initial_state 0) _ 116);
    reflexivity.
Defined.

Lemma getitem_Ok (a : list Z) (i : nat) (s : state) :
  (i < List.length a)%nat -> exists v, getitem a i s = (Ok v, s).
Proof.
  intros Hi. unfold getitem.
  destruct (nth_error a i) as [v|] eqn:E.
  - now exists v.
  - apply nth_error_None in E. lia.
Qed.

Lemma getitem_cases (a : list Z) (i : nat) (s : state) :
  (exists v, getitem a i s = (Ok v, s)) \/
  getitem a i s = (Raise (IndexError "array index out of range"), s).
Proof.
  unfold getitem. destruct (nth_error a i) as [v|].
  - left. now exists v.
  - now right.
Qed.

(** C8, as stated, fails: on [unterminated_info] the error that leaves
    [get_board_info] is Python's [ValueError], not an [XsError] of either
    kind. *)
Lemma get_board_info_unterminated_not_fatal :
  ~ (forall hw s s' info,
        fetch_info hw s = (Ok info, s') ->
        sum info mod 256 = 0 ->
        index 0 (skipn 5 info) = None ->
        exists msg, fst (get_board_info hw s) = Raise (XsMajorError msg)).
Proof.
  intros H.
  destruct (H (bench no_fault unterminated_info healthy_dut) (initial_state 0)
              _ unterminated_info eq_refl eq_refl eq_refl) as [msg Hmsg].
  vm_compute in Hmsg. discriminate.
Qed.

(** C8, amended: a frame that passes the checksum and has no zero byte at
    or after offset 5 never yields a [board_info]: [get_board_info] ends,
    in the state the fetch left, with a built-in Python exception, which
    is no [XsError]: the [ValueError] of [desc.index(0)] for a frame that
    has its five header bytes, the [IndexError] of the first missing
    header byte for a shorter one. *)
Theorem get_board_info_unterminated hw s s' info :
  fetch_info hw s = (Ok info, s') ->
  sum info mod 256 = 0 ->
  index 0 (skipn 5 info) = None ->
  get_board_info hw s
  = (Raise (if (5 <=? List.length info)%nat
            then ValueError "array.index(x): x not in list"
            else IndexError "array index out of range"),
     s')
  /\
  isinstance_XsError
    (if (5 <=? List.length info)%nat
     then ValueError "array.index(x): x not in list"
     else IndexError "array index out of range") = false.
Proof.
  intros Hfetch Hsum Hidx.
  split; [|now destruct (5 <=? List.length info)%nat].
  unfold get_board_info. rewrite (bind_Ok _ _ _ _ _ Hfetch).
  rewrite land_0xff, Hsum. cbn [Z.eqb negb].
  destruct (Nat.leb_spec 5 (List.length info)) as [Hlen|Hlen].
  - destruct (getitem_Ok info 1 s') as [v1 E1]; [lia|].
    destruct (getitem_Ok info 2 s') as [v2 E2]; [lia|].
    destruct (getitem_Ok info 3 s') as [v3 E3]; [lia|].
    destruct (getitem_Ok info 4 s') as [v4 E4]; [lia|].
    rewrite (bind_Ok _ _ _ _ _ E1), (bind_Ok _ _ _ _ _ E2),
      (bind_Ok _ _ _ _ _ E3), (bind_Ok _ _ _ _ _ E4), Hidx.
    reflexivity.
  - destruct (getitem_cases info 1 s') as [[v1 E1]|E1];
      [rewrite (bind_Ok _ _ _ _ _ E1)|now rewrite (bind_Raise _ _ _ _ _ E1)].
    destruct (getitem_cases info 2 s') as [[v2 E2]|E2];
      [rewrite (bind_Ok _ _ _ _ _ E2)|now rewrite (bind_Raise _ _ _ _ _ E2)].
    destruct (getitem_cases info 3 s') as [[v3 E3]|E3];
      [rewrite (bind_Ok _ _ _ _ _ E3)|now rewrite (bind_Raise _ _ _ _ _ E3)].
    destruct (getitem_cases info 4 s') as [[v4 E4]|E4];
      [rewrite (bind_Ok _ _ _ _ _ E4)|now rewrite (bind_Raise _ _ _ _ _ E4)].
    exfalso. unfold getitem in E4.
    destruct (nth_error info 4) eqn:E; [|discriminate].
    assert (nth_error info 4 <> None) as Hn by congruence.
    apply nth_error_Some in Hn. lia.
Qed.

Lemma get_board_info_unterminated_witness :
  (get_board_info (bench no_fault unterminated_info healthy_dut)
     (initial_state 0)
   = (Raise (ValueError "array.index(x): x not in list"),
      {| trace := [xsusb_get_info]; fetches := 1; polls := 0;
         cfg_flash_flag := 0 |})
   /\
   isinstance_XsError (ValueError "array.index(x): x not in list") = false)
  /\
  (get_board_info (bench no_fault [255; 1] healthy_dut) (initial_state 0)
   = (Raise (IndexError "array index out of range"),
      {| trace := [xsusb_get_info]; fetches := 1; polls := 0;
         cfg_flash_flag := 0 |})
   /\
   isinstance_XsError (IndexError "array index out of range") = false).
Proof.
  split.
  - exact (get_board_info_unterminated
             (bench no_fault unterminated_info healthy_dut) (initial_state 0)
             _ unterminated_info eq_refl eq_refl eq_refl).
  - exact (get_board_info_unterminated
             (bench no_fault [255; 1] healthy_dut) (initial_state 0)
             _ [255; 1] eq_refl eq_refl eq_refl).
Defined.

(** C5, as stated, fails: when the reset raises as well, the fetch is not
    tried a second time. *)
Lemma get_board_info_no_retry_after_failed_reset :
  ~ (forall hw s e,
        hw_fault hw (List.length (trace s)) xsusb_get_info = Some e ->
        isinstance_XsError e = true ->
        trace (snd (get_board_info hw s))
        = (trace s ++ [xsusb_get_info; xsusb_reset; xsusb_get_info])%list).
Proof.
  intros H.
  specialize (H (bench reset_fails sample_info healthy_dut) (initial_state 0)
                (XsError "USB timeout") eq_refl eq_refl).
  vm_compute in H. discriminate.
Qed.

(** C5, amended: when the first fetch raises an [XsError],
    [get_board_info] issues one reset; if the reset goes through it
    fetches once more, and that is the last call it makes.  An [XsError]
    from the reset or from the second fetch becomes the fatal "Unable to
    get XESS board information."; any other exception of theirs
    propagates; and when the second fetch delivers a frame, the outcome is
    decided by that frame alone. *)
Theorem get_board_info_one_reset_one_retry hw s e :
  hw_fault hw (List.length (trace s)) xsusb_get_info = Some e ->
  isinstance_XsError e = true ->
  let fatal := XsMajorError "Unable to get XESS board information." in
  let t1 := (trace s ++ [xsusb_get_info])%list in
  let t2 := (t1 ++ [xsusb_reset])%list in
  let t3 := (t2 ++ [xsusb_get_info])%list in
  match hw_fault hw (List.length t1) xsusb_reset with
  | Some e1 =>
      trace (snd (get_board_info hw s)) = t2 /\
      fst (get_board_info hw s)
      = Raise (if isinstance_XsError e1 then fatal else e1)
  | None =>
      trace (snd (get_board_info hw s)) = t3 /\
      match hw_fault hw (List.length t2) xsusb_get_info with
      | Some e2 =>
          fst (get_board_info hw s)
          = Raise (if isinstance_XsError e2 then fatal else e2)
      | None =>
          fetch_info hw s
          = (Ok (hw_info hw (fetches s)),
             {| trace := t3; fetches := S (fetches s); polls := polls s;
                cfg_flash_flag := cfg_flash_flag s |})
      end
  end.
Proof.
  intros H0 He fatal t1 t2 t3.
  assert (Hfetch :
    fetch_info hw s
    = match hw_fault hw (List.length t1) xsusb_reset with
      | Some e1 =>
          (Raise (if isinstance_XsError e1 then fatal else e1),
           log xsusb_reset (log xsusb_get_info s))
      | None =>
          match hw_fault hw (List.length t2) xsusb_get_info with
          | Some e2 =>
              (Raise (if isinstance_XsError e2 then fatal else e2),
               log xsusb_get_info (log xsusb_reset (log xsusb_get_info s)))
          | None =>
              (Ok (hw_info hw (fetches s)),
               {| trace := t3; fetches := S (fetches s); polls := polls s;
                  cfg_flash_flag := cfg_flash_flag s |})
          end
      end).
  { unfold fetch_info, try_except_XsError at 1, get_info at 1.
    rewrite H0, He.
    unfold try_except_XsError, bind, reset, extcall, get_info, raise.
    cbn [trace log fetches polls cfg_flash_flag].
    fold t1. destruct (hw_fault hw (List.length t1) xsusb_reset) as [e1|].
    - now destruct (isinstance_XsError e1).
    - cbn [trace log fetches polls cfg_flash_flag]. fold t1 t2.
      destruct (hw_fault hw (List.length t2) xsusb_get_info) as [e2|].
      + now destruct (isinstance_XsError e2).
      + reflexivity. }
  unfold get_board_info, bind. rewrite Hfetch.
  destruct (hw_fault hw (List.length t1) xsusb_reset) as [e1|].
  - split; reflexivity.
  - destruct (hw_fault hw (List.length t2) xsusb_get_info) as [e2|].
    + split; reflexivity.
    + split; [|reflexivity].
      set (info := hw_info hw (fetches s)).
      set (s3 := {| trace := t3; fetches := S (fetches s); polls := polls s;
                    cfg_flash_flag := cfg_flash_flag s |}).
      destruct (negb (Z.land (sum info) 0xff =? 0)); [reflexivity|].
      change (trace (snd (bind (getitem info 1) (fun i1 =>
                bind (getitem info 2) (fun i2 =>
                bind (getitem info 3) (fun i3 =>
                bind (getitem info 4) (fun i4 =>
                  match index 0 (skipn 5 info) with
                  | Some desc_len =>
                      ret {| ID := fmt_02x i1 ++ fmt_02x i2;
                             VERSION := fmt_d i3 ++ "." ++ fmt_d i4;
                             DESCRIPTION := tostring (firstn desc_len
                                                        (skipn 5 info)) |}
                  | None => raise (ValueError "array.index(x): x not in list")
                  end)))) s3)) = t3).
      unfold bind, getitem.
      destruct (nth_error info 1); [|reflexivity].
      destruct (nth_error info 2); [|reflexivity].
      destruct (nth_error info 3); [|reflexivity].
      destruct (nth_error info 4); [|reflexivity].
      destruct (index 0 (skipn 5 info)); reflexivity.
Qed.

Lemma get_board_info_one_reset_one_retry_witness :
  trace (snd (get_board_info (bench retry_fails sample_info healthy_dut)
                (initial_state 0)))
  = [xsusb_get_info; xsusb_reset; xsusb_get_info] /\
  fst (get_board_info (bench retry_fails sample_info healthy_dut)
         (initial_state 0))
  = Raise (XsMajorError "Unable to get XESS board information.").
Proof.
  exact (get_board_info_one_reset_one_retry
           (bench retry_fails sample_info healthy_dut) (initial_state 0)
           (XsError "USB timeout") eq_refl eq_refl).
Defined.

(** ** Properties of the identification *)

(** C1, as stated, fails: a fatal error out of a connectivity check does
    not end the probe. *)
Lemma probe_survives_fatal_error :
  ~ (forall hw id c cs s e s',
        bind (construct hw c id) (is_connected hw) s = (Raise e, s') ->
        is_XsMajorError e = true ->
        probe hw id (c :: cs) s = (Raise e, s')).
Proof.
  intros H.
  specialize (H (bench idcode_fatal sample_info healthy_dut) 0 Xula50
                [Xula200; Xula2lx25; Xula2lx9; XulaNoJtag] (initial_state 0)
                (XsMajorError "JTAG chain broken") _ eq_refl eq_refl).
  vm_compute in H. discriminate.
Qed.

(** C1, amended: when building a descriptor of the priority list or its
    connectivity check raises an [XsError], recoverable or fatal, the
    probe takes it as "not this variant" and goes on with the next
    descriptor, in the state the failed attempt left; only an exception
    that is no [XsError] ends the identification and reaches the caller. *)
Theorem probe_continues_on_XsError hw id c cs s e s' :
  bind (construct hw c id) (is_connected hw) s = (Raise e, s') ->
  probe hw id (c :: cs) s
  = if isinstance_XsError e then probe hw id cs s' else (Raise e, s').
Proof.
  intros H. cbn [probe]. unfold bind at 1, try_except_XsError.
  unfold bind in H |- *.
  destruct (construct hw c id s) as [[x|e0|] s0].
  - destruct (is_connected hw x s0) as [[b|e1|] s1]; try discriminate.
    injection H as -> ->.
    destruct (isinstance_XsError e); reflexivity.
  - injection H as -> ->.
    destruct (isinstance_XsError e); reflexivity.
  - discriminate.
Qed.

Lemma probe_continues_on_XsError_witness :
  probe (bench idcode_fatal sample_info healthy_dut) 0
    [Xula50; Xula200; Xula2lx25; Xula2lx9; XulaNoJtag] (initial_state 0)
  = probe (bench idcode_fatal sample_info healthy_dut) 0
      [Xula200; Xula2lx25; Xula2lx9; XulaNoJtag]
      {| trace := [XsUsb_new 0; XsJtag_new; Pic18f14k50_new;
                   Fpga_new Xc3s50avq100; xsusb_get_info;
                   fpga_is_connected Xc3s50avq100];
         fetches := 1; polls := 0; cfg_flash_flag := 0 |}.
Proof.
  exact (probe_continues_on_XsError
           (bench idcode_fatal sample_info healthy_dut) 0 Xula50
           [Xula200; Xula2lx25; Xula2lx9; XulaNoJtag] (initial_state 0)
           (XsMajorError "JTAG chain broken") _ eq_refl).
Defined.

(** The same run seen from [get_xsboard]: the caller gets the XuLA2-LX25
    that answers later in the list, not the fatal error. *)
Example get_xsboard_after_fatal_error :
  fst (get_xsboard (bench idcode_fatal sample_info healthy_dut) (Some 0) ""
         (initial_state 0))
  = Ok (Some {| cls := Xula2lx25; xsusb_id := 0 |}).
Proof. reflexivity. Qed.

(** An exception that is no [XsError] does reach the caller. *)
Example get_xsboard_other_exception :
  fst (get_xsboard (bench port_busy sample_info healthy_dut) (Some 0) ""
         (initial_state 0))
  = Raise (OtherException "USBError: resource busy").
Proof. reflexivity. Qed.

(** [xsboard_name.lower() == c.name.lower()] between two classes. *)
Lemma name_collision (c1 c2 : board_class) :
  lower (name c1) = lower (name c2) ->
  c1 = c2 \/
  (c1 = XulaOldFmw /\ c2 = XulaNoJtag) \/ (c1 = XulaNoJtag /\ c2 = XulaOldFmw).
Proof.
  destruct c1, c2; intros H; auto; vm_compute in H; discriminate.
Qed.

(** C9, as stated, fails: "XuLA UNKNOWN" is the name of two descriptors,
    and asking for it never builds a [XulaNoJtag]. *)
Lemma get_xsboard_name_not_unique :
  ~ (forall hw id nm c s,
        In c board_classes ->
        lower nm = lower (name c) ->
        get_xsboard hw (Some id) nm s
        = bind (construct hw c id) (fun xsboard => ret (Some xsboard)) s).
Proof.
  intros H.
  specialize (H (bench no_fault sample_info healthy_dut) 0 "XuLA UNKNOWN"
                XulaNoJtag (initial_state 0)).
  vm_compute in H.
  specialize (H (or_intror (or_intror (or_intror (or_intror
                  (or_intror (or_introl eq_refl)))))) eq_refl).
  discriminate.
Qed.

(** C9, amended: when the supplied name equals a descriptor's name up to
    case, [get_xsboard] builds that descriptor and nothing else, without a
    connectivity check, and returns it; whatever its construction raises
    reaches the caller unchanged.  The descriptor is the first of the
    priority list with that name: for "XuLA UNKNOWN", which [XulaOldFmw]
    and [XulaNoJtag] share, it is [XulaOldFmw]. *)
Theorem get_xsboard_by_name hw id nm c s :
  lower nm = lower (name c) ->
  let chosen := match c with XulaNoJtag => XulaOldFmw | _ => c end in
  get_xsboard hw (Some id) nm s
  = match construct hw chosen id s with
    | (Ok xsboard, s') => (Ok (Some xsboard), s')
    | (Raise e, s') => (Raise e, s')
    | (OutOfFuel, s') => (OutOfFuel, s')
    end.
Proof.
  intros H chosen. unfold get_xsboard, board_classes.
  cbn [select_by_name]. rewrite H.
  destruct c; subst chosen;
    repeat match goal with
      | |- context [String.eqb (lower (name ?a)) (lower (name ?b))] =>
          let v := eval vm_compute in
                   (String.eqb (lower (name a)) (lower (name b))) in
          change (String.eqb (lower (name a)) (lower (name b))) with v
      end;
    cbv iota; unfold bind, ret;
    match goal with
    | |- context [construct hw ?k id s] =>
        destruct (construct hw k id s) as [[x|e|] s']; reflexivity
    end.
Qed.

Lemma get_xsboard_by_name_witness :
  get_xsboard (bench no_fault sample_info healthy_dut) (Some 0) "xula2-lx9"
    (initial_state 0)
  = (Ok (Some {| cls := Xula2lx9; xsusb_id := 0 |}),
     {| trace := [XsUsb_new 0; XsJtag_new; Pic18f14k50_new;
                  Fpga_new Xc6slx9ftg256];
        fetches := 0; polls := 0; cfg_flash_flag := 0 |}).
Proof.
  exact (get_xsboard_by_name (bench no_fault sample_info healthy_dut) 0
           "xula2-lx9" Xula2lx9 (initial_state 0) eq_refl).
Defined.

(** Asked for a "XuLA-100", the caller gets the XuLA2-LX25 that is there. *)
Example get_xsboard_other_variant :
  fst (get_xsboard (bench no_fault sample_info healthy_dut) (Some 0)
         "XuLA-100" (initial_state 0))
  = Ok (Some {| cls := Xula2lx25; xsusb_id := 0 |}).
Proof. reflexivity. Qed.

(** With nothing plugged in, the same call returns [None]. *)
Example get_xsboard_nothing_responds :
  fst (get_xsboard (bench unplugged sample_info healthy_dut) (Some 0)
         "XuLA-100" (initial_state 0))
  = Ok None.
Proof. reflexivity. Qed.

(** ** Methods that only talk *)

Lemma extend_nil (s : state) : extend s [] = s.
Proof. destruct s. unfold extend. cbn. now rewrite app_nil_r. Qed.

Lemma extend_extend (s : state) (t1 t2 : list call) :
  extend (extend s t1) t2 = extend s (t1 ++ t2).
Proof. unfold extend. cbn. now rewrite app_assoc. Qed.

Lemma only_logs_ret {A} (a : A) : only_logs (ret a).
Proof.
  intros s. exists []. split; [now rewrite extend_nil|discriminate].
Qed.

Lemma only_logs_raise {A} (e : exn) : only_logs (@raise A e).
Proof.
  intros s. exists []. split; [now rewrite extend_nil|discriminate].
Qed.

Lemma only_logs_bind {A B} (m : M A) (k : A -> M B) :
  only_logs m -> (forall a, only_logs (k a)) -> only_logs (bind m k).
Proof.
  intros Hm Hk s. unfold bind.
  destruct (Hm s) as [t [Ht Hf]].
  destruct (m s) as [[a|e|] s1]; cbn in Ht, Hf; subst.
  - destruct (Hk a (extend s t)) as [t' [Ht' Hf']].
    exists (t ++ t')%list. now rewrite Ht', extend_extend.
  - exists t. split; [reflexivity|discriminate].
  - contradiction.
Qed.

Lemma only_logs_extcall hw (c : call) : only_logs (extcall hw c).
Proof.
  intros s. exists [c]. unfold extcall.
  destruct (hw_fault hw _ c); split; try reflexivity; discriminate.
Qed.

Lemma only_logs_sendMessage (phase : string) : only_logs (sendMessage phase).
Proof.
  intros s. exists [pub_sendMessage phase]. split; [reflexivity|discriminate].
Qed.

Lemma only_logs_sleep : only_logs sleep.
Proof. intros s. exists [time_sleep]. split; [reflexivity|discriminate]. Qed.

Lemma only_logs_getattr {A} (attr : string) (v : option A) :
  only_logs (getattr attr v).
Proof.
  destruct v; [apply only_logs_ret|apply only_logs_raise].
Qed.

Create HintDb logs.
#[local] Hint Resolve only_logs_ret only_logs_raise only_logs_extcall
  only_logs_sendMessage only_logs_sleep only_logs_getattr : logs.

Ltac only_logs_tac :=
  repeat first
    [ apply only_logs_bind; [|intros ?]
    | solve [auto with logs] ].

Lemma only_logs_configure hw self bitstream :
  only_logs (configure hw self bitstream).
Proof. unfold configure. only_logs_tac. Qed.

#[local] Hint Resolve only_logs_configure : logs.

Lemma only_logs_self_test_setup hw self bitstream :
  only_logs (self_test_setup hw self bitstream).
Proof.
  unfold self_test_setup. only_logs_tac.
  destruct bitstream; auto with logs.
Qed.

(** ** Properties of the self-test *)

(** [do_self_test] either gets as far as its loop, having made some calls
    that are no polls, or its preparation raised. *)
Lemma do_self_test_cases hw self bitstream s :
  (exists t, forall fuel,
      do_self_test hw fuel self bitstream s
      = poll hw self fuel TEST_START (extend s t)) \/
  (exists e s1, forall fuel,
      do_self_test hw fuel self bitstream s = (Raise e, s1)).
Proof.
  unfold do_self_test, bind.
  destruct (only_logs_self_test_setup hw self bitstream s) as [t [Ht Hf]].
  destruct (self_test_setup hw self bitstream s) as [[[]|e|] s1];
    cbn in Ht, Hf; subst.
  - left. now exists t.
  - right. now exists e, (extend s t).
  - contradiction.
Qed.

(** One turn of the loop, when the read goes through. *)
Lemma poll_S hw self fuel prev s :
  hw_fault hw (List.length (trace s)) dut_read = None ->
  poll hw self (S fuel) prev s
  = let fr := hw_dut hw (polls s) in
    let s1 := after_poll s in
    if negb (signature fr =? SELF_TEST_SIGNATURE)
    then (Raise (XsMajorError
                   (name (cls self)
                    ++ "FPGA is not configured with diagnostic bitstream.")),
          s1)
    else if negb (progress fr =? prev)
    then
      let s2 := if progress fr =? TEST_READ
                then log (pub_sendMessage "Reading SDRAM") s1 else s1 in
      if failed fr =? 1
      then (Raise (XsMinorError
                     (name (cls self) ++ " failed diagnostic test.")),
            log (pub_sendMessage "Test Done") s2)
      else if progress fr =? TEST_DONE
      then (Ok tt, log (pub_sendMessage "Test Done") s2)
      else poll hw self fuel (progress fr) s2
    else poll hw self fuel (progress fr) s1.
Proof.
  intros H. cbn [poll]. unfold bind at 1, read. rewrite H.
  fold (after_poll s). cbv zeta.
  destruct (negb (signature (hw_dut hw (polls s)) =? SELF_TEST_SIGNATURE));
    [reflexivity|].
  destruct (negb (progress (hw_dut hw (polls s)) =? prev)); [|reflexivity].
  unfold bind, sendMessage, ret, raise.
  destruct (progress (hw_dut hw (polls s)) =? TEST_READ);
    destruct (failed (hw_dut hw (polls s)) =? 1);
    destruct (progress (hw_dut hw (polls s)) =? TEST_DONE); reflexivity.
Qed.

Lemma poll_S_fault hw self fuel prev s e :
  hw_fault hw (List.length (trace s)) dut_read = Some e ->
  poll hw self (S fuel) prev s = (Raise e, log dut_read s).
Proof.
  intros H. cbn [poll]. unfold bind at 1, read. now rewrite H.
Qed.

(** While the loop is still running, [prev_progress] is never [TEST_DONE],
    it is the progress of the frame polled last, and more fuel continues
    from where the run stands. *)
Lemma poll_OutOfFuel hw self n : forall prev s s',
  poll hw self n prev s = (OutOfFuel, s') ->
  prev <> TEST_DONE ->
  exists prev',
    prev' <> TEST_DONE /\
    prev' = match n with
            | O => prev
            | S k => progress (hw_dut hw (polls s + k))
            end /\
    polls s' = (polls s + n)%nat /\
    forall m, poll hw self (n + m) prev s = poll hw self m prev' s'.
Proof.
  induction n as [|n IH]; intros prev s s' H Hprev.
  - injection H as <-. exists prev. repeat split; auto.
  - destruct (hw_fault hw (List.length (trace s)) dut_read) as [e|] eqn:Hr.
    { rewrite (poll_S_fault _ _ _ _ _ _ Hr) in H. discriminate. }
    rewrite (poll_S _ _ _ _ _ Hr) in H. cbv zeta in H.
    set (fr := hw_dut hw (polls s)) in *.
    assert (Hnext : forall s1,
               polls s1 = S (polls s) ->
               poll hw self n (progress fr) s1 = (OutOfFuel, s') ->
               (forall m, poll hw self (S n + m) prev s
                          = poll hw self (n + m) (progress fr) s1) ->
               progress fr <> TEST_DONE ->
               exists prev',
                 prev' <> TEST_DONE /\
                 prev' = progress (hw_dut hw (polls s + n)) /\
                 polls s' = (polls s + S n)%nat /\
                 forall m, poll hw self (S n + m) prev s
                           = poll hw self m prev' s').
    { intros s1 Hp Hrec Hstep Hne.
      destruct (IH _ _ _ Hrec Hne) as [prev' [H1 [H2 [H3 H4]]]].
      exists prev'. repeat split; auto.
      - rewrite H2. destruct n as [|k].
        + unfold fr. now rewrite Nat.add_0_r.
        + rewrite Hp. f_equal. f_equal. lia.
      - rewrite H3, Hp. lia.
      - intros m. now rewrite Hstep, H4. }
    destruct (negb (signature fr =? SELF_TEST_SIGNATURE)) eqn:Hsig;
      [discriminate|].
    destruct (negb (progress fr =? prev)) eqn:Hchg.
    + destruct (failed fr =? 1) eqn:Hfail; [discriminate|].
      destruct (progress fr =? TEST_DONE) eqn:Hdone; [discriminate|].
      apply Z.eqb_neq in Hdone.
      eapply Hnext; [|exact H| |exact Hdone].
      * now destruct (progress fr =? TEST_READ).
      * intros m. change (S n + m)%nat with (S (n + m)).
        rewrite (poll_S _ _ _ _ _ Hr). cbv zeta. fold fr.
        rewrite Hsig, Hchg, Hfail.
        apply Z.eqb_neq in Hdone. now rewrite Hdone.
    + apply negb_false_iff, Z.eqb_eq in Hchg.
      eapply Hnext; [|exact H| |congruence].
      * reflexivity.
      * intros m. change (S n + m)%nat with (S (n + m)).
        rewrite (poll_S _ _ _ _ _ Hr). cbv zeta. fold fr.
        rewrite Hsig. apply Z.eqb_eq in Hchg. now rewrite Hchg.
Qed.

(** A run that passed did so at a poll it reached. *)
Lemma poll_Ok hw self fuel : forall prev s sf,
  poll hw self fuel prev s = (Ok tt, sf) ->
  exists n s',
    (n < fuel)%nat /\
    poll hw self n prev s = (OutOfFuel, s') /\
    hw_fault hw (List.length (trace s')) dut_read = None /\
    signature (hw_dut hw (polls s')) = SELF_TEST_SIGNATURE /\
    progress (hw_dut hw (polls s')) = TEST_DONE /\
    failed (hw_dut hw (polls s')) <> 1.
Proof.
  induction fuel as [|fuel IH]; intros prev s sf H; [discriminate|].
  destruct (hw_fault hw (List.length (trace s)) dut_read) as [e|] eqn:Hr.
  { rewrite (poll_S_fault _ _ _ _ _ _ Hr) in H. discriminate. }
  pose proof (poll_S hw self fuel prev s Hr) as Hstep.
  rewrite Hstep in H. cbv zeta in H.
  set (fr := hw_dut hw (polls s)) in *.
  assert (Hnext : forall s1,
             poll hw self fuel (progress fr) s1 = (Ok tt, sf) ->
             (forall k, poll hw self (S k) prev s
                        = poll hw self k (progress fr) s1) ->
             exists n s',
               (n < S fuel)%nat /\
               poll hw self n prev s = (OutOfFuel, s') /\
               hw_fault hw (List.length (trace s')) dut_read = None /\
               signature (hw_dut hw (polls s')) = SELF_TEST_SIGNATURE /\
               progress (hw_dut hw (polls s')) = TEST_DONE /\
               failed (hw_dut hw (polls s')) <> 1).
  { intros s1 Hrec Hk.
    destruct (IH _ _ _ Hrec) as [n [s' [Hn [Hrun Hrest]]]].
    exists (S n), s'. split; [lia|]. split; [|exact Hrest].
    now rewrite Hk. }
  destruct (negb (signature fr =? SELF_TEST_SIGNATURE)) eqn:Hsig;
    [discriminate|].
  destruct (negb (progress fr =? prev)) eqn:Hchg.
  - destruct (failed fr =? 1) eqn:Hfail; [discriminate|].
    destruct (progress fr =? TEST_DONE) eqn:Hdone.
    + exists O, s. split; [lia|]. split; [reflexivity|]. split; [exact Hr|].
      fold fr. apply negb_false_iff in Hsig.
      apply Z.eqb_eq in Hsig, Hdone. apply Z.eqb_neq in Hfail. auto.
    + eapply Hnext; [exact H|].
      intros k. rewrite (poll_S _ _ _ _ _ Hr). cbv zeta. fold fr.
      now rewrite Hsig, Hchg, Hfail, Hdone.
  - eapply Hnext; [exact H|].
    intros k. rewrite (poll_S _ _ _ _ _ Hr). cbv zeta. fold fr.
    now rewrite Hsig, Hchg.
Qed.

(** The loop from the point of view of [do_self_test]. *)
Lemma observes_poll hw self bitstream s n fr :
  observes hw self bitstream s n fr ->
  exists t s' prev,
    (forall fuel, do_self_test hw fuel self bitstream s
                  = poll hw self fuel TEST_START (extend s t)) /\
    do_self_test hw n self bitstream s = (OutOfFuel, s') /\
    hw_fault hw (List.length (trace s')) dut_read = None /\
    fr = hw_dut hw (polls s') /\
    polls s' = (polls s + n)%nat /\
    prev <> TEST_DONE /\
    prev = prev_progress_at hw (polls s) n /\
    forall m, do_self_test hw (n + m) self bitstream s
              = poll hw self m prev s'.
Proof.
  intros [s' [Hrun [Hr Hfr]]].
  destruct (do_self_test_cases hw self bitstream s)
    as [[t Hdo]|[e [s1 Hdo]]]; [|rewrite Hdo in Hrun; discriminate].
  pose proof Hrun as Hrun'. rewrite Hdo in Hrun'.
  destruct (poll_OutOfFuel _ _ _ _ _ _ Hrun') as [prev [H1 [H2 [H3 H4]]]];
    [discriminate|].
  exists t, s', prev. repeat split; auto.
  intros m. now rewrite Hdo.
Qed.

(** C2, as stated, fails: a poll that shows [failed] while the progress
    value has not moved is passed over, and the test can still succeed. *)
Lemma do_self_test_passes_after_failed_poll :
  ~ (forall hw self bitstream s n fr fuel s',
        observes hw self bitstream s n fr ->
        failed fr = 1 ->
        do_self_test hw fuel self bitstream s <> (Ok tt, s')).
Proof.
  intros H.
  refine (H (bench no_fault sample_info failed_at_start_dut)
            {| cls := Xula50; xsusb_id := 0 |} None (initial_state 0)
            O (bad TEST_START) 2%nat _ _ eq_refl _).
  - eexists. split; [vm_compute; reflexivity|]. split; reflexivity.
  - vm_compute. reflexivity.
Qed.

(** C2, amended: [do_self_test] returns if and only if its loop reaches a
    poll that shows the expected signature, progress [TEST_DONE] and no
    failure.  A poll reached by the loop that shows the expected signature,
    a progress value other than the one polled before ([TEST_START] at the
    first poll) and [failed] set ends the test there: "Test Done" is
    published and the recoverable "failed diagnostic test." is raised.  A
    [failed] seen while the progress value stands still has no effect. *)
Theorem do_self_test_verdict hw self bitstream s :
  ((exists fuel s', do_self_test hw fuel self bitstream s = (Ok tt, s')) <->
   (exists n fr,
       observes hw self bitstream s n fr /\
       signature fr = SELF_TEST_SIGNATURE /\
       progress fr = TEST_DONE /\
       failed fr <> 1))
  /\
  (forall n fr fuel,
      observes hw self bitstream s n fr ->
      signature fr = SELF_TEST_SIGNATURE ->
      progress fr <> prev_progress_at hw (polls s) n ->
      failed fr = 1 ->
      (n < fuel)%nat ->
      exists s',
        do_self_test hw n self bitstream s = (OutOfFuel, s') /\
        do_self_test hw fuel self bitstream s
        = (Raise (XsMinorError
                    (name (cls self) ++ " failed diagnostic test.")),
           log (pub_sendMessage "Test Done")
             (if progress fr =? TEST_READ
              then log (pub_sendMessage "Reading SDRAM") (after_poll s')
              else after_poll s')))
  /\
  (forall n fr fuel,
      observes hw self bitstream s n fr ->
      signature fr = SELF_TEST_SIGNATURE ->
      progress fr = prev_progress_at hw (polls s) n ->
      failed fr = 1 ->
      do_self_test hw (S n + fuel) self bitstream s
      = poll hw self fuel (progress fr)
          (after_poll (snd (do_self_test hw n self bitstream s)))).
Proof.
  split; [split|split].
  - intros [fuel [sf H]].
    destruct (do_self_test_cases hw self bitstream s)
      as [[t Hdo]|[e [s1 Hdo]]]; [|rewrite Hdo in H; discriminate].
    rewrite Hdo in H.
    destruct (poll_Ok _ _ _ _ _ _ H) as [n [s' [_ [Hrun [Hr [H1 [H2 H3]]]]]]].
    exists n, (hw_dut hw (polls s')). repeat split; auto.
    exists s'. rewrite Hdo. auto.
  - intros [n [fr [Hobs [Hsig [Hdone Hfail]]]]].
    destruct (observes_poll _ _ _ _ _ _ Hobs)
      as [t [s' [prev [_ [_ [Hr [Hfr [_ [Hprev [_ Hm]]]]]]]]]].
    exists (n + 1)%nat. rewrite Hm, (poll_S _ _ _ _ _ Hr). cbv zeta.
    rewrite <- Hfr, Hsig, Hdone, Z.eqb_refl. cbn [negb].
    destruct (Z.eqb_spec TEST_DONE prev) as [E|_]; [congruence|]. cbn [negb].
    destruct (Z.eqb_spec (failed fr) 1) as [E|_]; [contradiction|].
    change (TEST_DONE =? TEST_READ) with false. cbv iota.
    change (TEST_DONE =? TEST_DONE) with true. cbv iota. eauto.
  - intros n fr fuel Hobs Hsig Hchg Hfail Hlt.
    destruct (observes_poll _ _ _ _ _ _ Hobs)
      as [t [s' [prev [_ [Hrun [Hr [Hfr [_ [_ [Hprev Hm]]]]]]]]]].
    exists s'. split; [exact Hrun|].
    replace fuel with (n + S (fuel - S n))%nat by lia.
    rewrite Hm, (poll_S _ _ _ _ _ Hr). cbv zeta.
    rewrite <- Hfr, Hsig, Z.eqb_refl. cbn [negb].
    destruct (Z.eqb_spec (progress fr) prev) as [E|_]; [congruence|].
    cbn [negb]. now rewrite Hfail.
  - intros n fr fuel Hobs Hsig Hsame Hfail.
    destruct (observes_poll _ _ _ _ _ _ Hobs)
      as [t [s' [prev [_ [Hrun [Hr [Hfr [_ [_ [Hprev Hm]]]]]]]]]].
    rewrite Hrun. cbn [snd].
    replace (S n + fuel)%nat with (n + S fuel)%nat by lia.
    rewrite Hm, (poll_S _ _ _ _ _ Hr). cbv zeta.
    rewrite <- Hfr, Hsig, Z.eqb_refl. cbn [negb].
    rewrite Hsame, <- Hprev, Z.eqb_refl. cbn [negb]. reflexivity.
Qed.

Lemma do_self_test_verdict_witness :
  fst (do_self_test (bench no_fault sample_info failed_at_write_dut) 5
         {| cls := Xula50; xsusb_id := 0 |} None (initial_state 0))
  = Raise (XsMinorError "XuLA-50 failed diagnostic test.").
Proof.
  destruct (proj1 (proj2 (do_self_test_verdict
                            (bench no_fault sample_info failed_at_write_dut)
                            {| cls := Xula50; xsusb_id := 0 |} None
                            (initial_state 0)))
              1%nat (bad TEST_WRITE) 5%nat) as [s' [_ H]].
  - eexists. split; [vm_compute; reflexivity|]. split; reflexivity.
  - reflexivity.
  - vm_compute. discriminate.
  - reflexivity.
  - lia.
  - rewrite H. reflexivity.
Defined.

(** The healthy board passes, and says so once. *)
Example do_self_test_healthy :
  do_self_test (bench no_fault sample_info healthy_dut) 4
    {| cls := Xula2lx25; xsusb_id := 0 |} None (initial_state 0)
  = (Ok tt,
     {| trace :=
          [pub_sendMessage "Downloading diagostic bitstream";
           pub_sendMessage "Downloading bitstream";
           xsusb_set_prog 1; xsusb_set_prog 0; xsusb_set_prog 1; time_sleep;
           fpga_configure Xc6slx25ftg256
             "/opt/xstools/xula2/test_board_jtag_lx25.bit";
           pub_sendMessage "Download complete";
           XsDutIo_new 1; dut_write 1; dut_write 0;
           pub_sendMessage "Writing SDRAM";
           dut_read; dut_read; dut_read;
           pub_sendMessage "Reading SDRAM";
           dut_read;
           pub_sendMessage "Test Done"];
        fetches := 0; polls := 4; cfg_flash_flag := 0 |}).
Proof. reflexivity. Qed.

(** C3: whenever the loop of [do_self_test] polls a frame whose signature
    is not [SELF_TEST_SIGNATURE], the test ends on that poll with the fatal
    "FPGA is not configured with diagnostic bitstream." error, whatever
    the frame's progress and failure fields say and whatever was polled
    before; nothing is published after the read. *)
Theorem do_self_test_wrong_signature hw self bitstream s n fr fuel :
  observes hw self bitstream s n fr ->
  signature fr <> SELF_TEST_SIGNATURE ->
  (n < fuel)%nat ->
  exists s',
    do_self_test hw n self bitstream s = (OutOfFuel, s') /\
    do_self_test hw fuel self bitstream s
    = (Raise (XsMajorError
                (name (cls self)
                 ++ "FPGA is not configured with diagnostic bitstream.")),
       after_poll s').
Proof.
  intros Hobs Hsig Hlt.
  destruct (observes_poll _ _ _ _ _ _ Hobs)
    as [t [s' [prev [_ [Hrun [Hr [Hfr [_ [_ [_ Hm]]]]]]]]]].
  exists s'. split; [exact Hrun|].
  replace fuel with (n + S (fuel - S n))%nat by lia.
  rewrite Hm, (poll_S _ _ _ _ _ Hr). cbv zeta. rewrite <- Hfr.
  destruct (Z.eqb_spec (signature fr) SELF_TEST_SIGNATURE) as [E|_];
    [contradiction|reflexivity].
Qed.

Lemma do_self_test_wrong_signature_witness :
  exists s',
    do_self_test (bench no_fault sample_info wrong_bitstream_dut) 1
      {| cls := Xula200; xsusb_id := 0 |} None (initial_state 0)
    = (OutOfFuel, s') /\
    do_self_test (bench no_fault sample_info wrong_bitstream_dut) 7
      {| cls := Xula200; xsusb_id := 0 |} None (initial_state 0)
    = (Raise (XsMajorError
                "XuLA-200FPGA is not configured with diagnostic bitstream."),
       after_poll s').
Proof.
  apply (do_self_test_wrong_signature
           (bench no_fault sample_info wrong_bitstream_dut)
           {| cls := Xula200; xsusb_id := 0 |} None (initial_state 0)
           1%nat (wrong_bitstream_dut 1) 7%nat).
  - eexists. split; [vm_compute; reflexivity|]. split; reflexivity.
  - vm_compute. discriminate.
  - lia.
Defined.

(** The same poll by poll: from any loop state, on any frame. *)
Lemma poll_wrong_signature hw self fuel prev s :
  hw_fault hw (List.length (trace s)) dut_read = None ->
  signature (hw_dut hw (polls s)) <> SELF_TEST_SIGNATURE ->
  poll hw self (S fuel) prev s
  = (Raise (XsMajorError
              (name (cls self)
               ++ "FPGA is not configured with diagnostic bitstream.")),
     after_poll s).
Proof.
  intros Hr Hsig. rewrite (poll_S _ _ _ _ _ Hr). cbv zeta.
  destruct (Z.eqb_spec (signature (hw_dut hw (polls s))) SELF_TEST_SIGNATURE)
    as [E|_]; [contradiction|reflexivity].
Qed.

(** ** Properties of the flash workflows *)

Lemma only_logs_XulaBase_read_cfg_flash hw self bottom top :
  only_logs (XulaBase_read_cfg_flash hw self bottom top).
Proof.
  unfold XulaBase_read_cfg_flash, create_cfg_flash, flash_read.
  only_logs_tac.
Qed.

Lemma only_logs_XulaBase_write_cfg_flash hw self hexfile bottom top :
  only_logs (XulaBase_write_cfg_flash hw self hexfile bottom top).
Proof.
  unfold XulaBase_write_cfg_flash, create_cfg_flash. only_logs_tac.
Qed.

Lemma only_logs_XulaBase_erase_cfg_flash hw self bottom top :
  only_logs (XulaBase_erase_cfg_flash hw self bottom top).
Proof.
  unfold XulaBase_erase_cfg_flash, create_cfg_flash. only_logs_tac.
Qed.

(** The three workflows of [Xula] have one shape: save, enable, the
    workflow of [XulaBase], restore. *)
Lemma bracket_shape {A} hw (body : M A) (finish : A -> Z -> M A) s :
  only_logs body ->
  (forall a flag s0,
      finish a flag s0
      = match set_cfg_flash_flag hw flag s0 with
        | (Ok _, s1) => (Ok a, s1)
        | (Raise e, s1) => (Raise e, s1)
        | (OutOfFuel, s1) => (OutOfFuel, s1)
        end) ->
  brackets_flag hw
    (bind (get_cfg_flash_flag hw) (fun cfg_flash_flag =>
       bind (enable_cfg_flash hw) (fun _ =>
         bind body (fun a => finish a cfg_flash_flag))))
    body s.
Proof.
  intros Hbody Hfin.
  set (W := bind (get_cfg_flash_flag hw) (fun cfg_flash_flag =>
              bind (enable_cfg_flash hw) (fun _ =>
                bind body (fun a => finish a cfg_flash_flag)))).
  set (s1 := {| trace := (trace s ++ [micro_get_cfg_flash_flag])
                         ++ [micro_enable_cfg_flash];
                fetches := fetches s; polls := polls s;
                cfg_flash_flag := 1 |}).
  assert (HW :
    W s
    = match hw_fault hw (List.length (trace s)) micro_get_cfg_flash_flag with
      | Some e0 => (Raise e0, log micro_get_cfg_flash_flag s)
      | None =>
          match hw_fault hw (S (List.length (trace s)))
                  micro_enable_cfg_flash with
          | Some e1 =>
              (Raise e1,
               log micro_enable_cfg_flash (log micro_get_cfg_flash_flag s))
          | None =>
              match body s1 with
              | (Ok a, s2) => finish a (cfg_flash_flag s) s2
              | (Raise e, s2) => (Raise e, s2)
              | (OutOfFuel, s2) => (OutOfFuel, s2)
              end
          end
      end).
  { unfold W, bind, get_cfg_flash_flag, enable_cfg_flash,
      store_cfg_flash_flag.
    destruct (hw_fault hw (List.length (trace s)) micro_get_cfg_flash_flag);
      [reflexivity|].
    cbn [trace log fetches polls cfg_flash_flag].
    rewrite length_app, Nat.add_comm. cbn [List.length Nat.add].
    destruct (hw_fault hw (S (List.length (trace s)))
                micro_enable_cfg_flash); reflexivity. }
  unfold brackets_flag. rewrite HW. clear HW.
  split.
  - intros a s' H.
    destruct (hw_fault hw (List.length (trace s)) micro_get_cfg_flash_flag);
      [discriminate H|].
    destruct (hw_fault hw (S (List.length (trace s)))
                micro_enable_cfg_flash); [discriminate H|].
    destruct (Hbody s1) as [t [Ht _]].
    destruct (body s1) as [[a0|e|] s2] eqn:Hb; try discriminate H.
    cbn [snd] in Ht. subst s2.
    rewrite Hfin in H. unfold set_cfg_flash_flag, store_cfg_flash_flag in H.
    destruct (hw_fault hw (List.length (trace (extend s1 t)))
                (micro_set_cfg_flash_flag (cfg_flash_flag s)));
      [discriminate H|].
    injection H as <- <-. split; [reflexivity|].
    exists s1, (extend s1 t). repeat split; auto.
    subst s1. cbn [trace]. now rewrite <- app_assoc.
  - intros e s' Hget Hen H. rewrite Hget, Hen in H.
    destruct (Hbody s1) as [t [Ht _]].
    destruct (body s1) as [[a0|e0|] s2] eqn:Hb; try discriminate H;
      cbn [snd] in Ht; subst s2.
    + rewrite Hfin in H.
      unfold set_cfg_flash_flag, store_cfg_flash_flag in H.
      destruct (hw_fault hw (List.length (trace (extend s1 t)))
                  (micro_set_cfg_flash_flag (cfg_flash_flag s)));
        [|discriminate H].
      injection H as _ <-. reflexivity.
    + injection H as _ <-. reflexivity.
Qed.

(** C6, as stated, fails: when the flash operation raises, the saved flag
    is not written back. *)
Lemma read_cfg_flash_failure_leaves_flag_enabled :
  ~ (forall hw self bottom top s,
        is_Xula (cls self) = true ->
        cfg_flash_flag (snd (read_cfg_flash hw self bottom top s))
        = cfg_flash_flag s).
Proof.
  intros H.
  specialize (H (bench flash_fails sample_info healthy_dut)
                {| cls := Xula50; xsusb_id := 0 |} 0 256 (initial_state 0)
                eq_refl).
  vm_compute in H. discriminate.
Qed.

(** The three workflows of [Xula], run: what they return, and where. *)
Lemma bracket_run {A} hw (body : M A) (finish : A -> Z -> M A) s :
  only_logs body ->
  (forall a flag s0,
      finish a flag s0
      = match set_cfg_flash_flag hw flag s0 with
        | (Ok _, s1) => (Ok a, s1)
        | (Raise e, s1) => (Raise e, s1)
        | (OutOfFuel, s1) => (OutOfFuel, s1)
        end) ->
  hw_fault hw (List.length (trace s)) micro_get_cfg_flash_flag = None ->
  hw_fault hw (S (List.length (trace s))) micro_enable_cfg_flash = None ->
  saves_enables_restores hw
    (bind (get_cfg_flash_flag hw) (fun cfg_flash_flag =>
       bind (enable_cfg_flash hw) (fun _ =>
         bind body (fun a => finish a cfg_flash_flag))))
    body s.
Proof.
  intros Hbody Hfin Hget Hen.
  set (W := bind (get_cfg_flash_flag hw) (fun cfg_flash_flag =>
              bind (enable_cfg_flash hw) (fun _ =>
                bind body (fun a => finish a cfg_flash_flag)))).
  assert (HW :
    W s
    = match body (flag_enabled s) with
      | (Ok a, s2) => finish a (cfg_flash_flag s) s2
      | (Raise e, s2) => (Raise e, s2)
      | (OutOfFuel, s2) => (OutOfFuel, s2)
      end).
  { unfold W, bind, get_cfg_flash_flag, enable_cfg_flash,
      store_cfg_flash_flag.
    rewrite Hget. cbn [trace log fetches polls cfg_flash_flag].
    rewrite length_app, Nat.add_comm. cbn [List.length Nat.add].
    rewrite Hen, <- app_assoc. reflexivity. }
  unfold saves_enables_restores. rewrite HW. clear HW.
  destruct (Hbody (flag_enabled s)) as [t [Ht Hfuel]].
  destruct (body (flag_enabled s)) as [[a|e|] s2];
    cbn [fst snd] in Ht, Hfuel; subst s2.
  - split; [reflexivity|]. intros Hset. rewrite Hfin.
    unfold set_cfg_flash_flag, store_cfg_flash_flag. now rewrite Hset.
  - split; reflexivity.
  - contradiction.
Qed.

(** C6, amended: on a XuLA board each of the three configuration-flash
    workflows reads and saves the flash-enable flag, enables it, and runs
    the workflow of [XulaBase] with the flag enabled.  When that workflow
    returns, the saved value is written back as the last call and the
    result is returned, so that the flag ends as it began, whatever it
    was.  When that workflow raises, the same exception comes out, the
    saved value is not written back and the flag is left enabled. *)
Theorem Xula_cfg_flash_saves_enables_restores hw self s :
  is_Xula (cls self) = true ->
  hw_fault hw (List.length (trace s)) micro_get_cfg_flash_flag = None ->
  hw_fault hw (S (List.length (trace s))) micro_enable_cfg_flash = None ->
  (forall bottom top,
      saves_enables_restores hw (read_cfg_flash hw self bottom top)
        (XulaBase_read_cfg_flash hw self bottom top) s)
  /\
  (forall hexfile bottom top,
      saves_enables_restores hw (write_cfg_flash hw self hexfile bottom top)
        (XulaBase_write_cfg_flash hw self hexfile bottom top) s)
  /\
  (forall bottom top,
      saves_enables_restores hw (erase_cfg_flash hw self bottom top)
        (XulaBase_erase_cfg_flash hw self bottom top) s).
Proof.
  intros HX Hget Hen.
  assert (Hunit : forall flag s0,
             set_cfg_flash_flag hw flag s0
             = match set_cfg_flash_flag hw flag s0 with
               | (Ok _, s1) => (Ok tt, s1)
               | (Raise e, s1) => (Raise e, s1)
               | (OutOfFuel, s1) => (OutOfFuel, s1)
               end).
  { intros flag s0.
    destruct (set_cfg_flash_flag hw flag s0) as [[[]|e|] s1]; reflexivity. }
  split; [|split].
  - intros bottom top.
    replace (read_cfg_flash hw self bottom top)
      with (Xula_read_cfg_flash hw self bottom top)
      by (unfold read_cfg_flash; destruct (cls self);
          try discriminate; reflexivity).
    apply (bracket_run hw (XulaBase_read_cfg_flash hw self bottom top)
             (fun data flag => bind (set_cfg_flash_flag hw flag)
                                 (fun _ => ret data)));
      [apply only_logs_XulaBase_read_cfg_flash| |exact Hget|exact Hen].
    intros a flag s0. unfold bind, ret.
    destruct (set_cfg_flash_flag hw flag s0) as [[[]|e|] s1]; reflexivity.
  - intros hexfile bottom top.
    replace (write_cfg_flash hw self hexfile bottom top)
      with (Xula_write_cfg_flash hw self hexfile bottom top)
      by (unfold write_cfg_flash; destruct (cls self);
          try discriminate; reflexivity).
    apply (bracket_run hw
             (XulaBase_write_cfg_flash hw self hexfile bottom top)
             (fun _ flag => set_cfg_flash_flag hw flag));
      [apply only_logs_XulaBase_write_cfg_flash| |exact Hget|exact Hen].
    intros [] flag s0. apply Hunit.
  - intros bottom top.
    replace (erase_cfg_flash hw self bottom top)
      with (Xula_erase_cfg_flash hw self bottom top)
      by (unfold erase_cfg_flash; destruct (cls self);
          try discriminate; reflexivity).
    apply (bracket_run hw (XulaBase_erase_cfg_flash hw self bottom top)
             (fun _ flag => set_cfg_flash_flag hw flag));
      [apply only_logs_XulaBase_erase_cfg_flash| |exact Hget|exact Hen].
    intros [] flag s0. apply Hunit.
Qed.

(** The flag off before a read that returns: off again after it.  The
    flag on before an erase that returns: on after it.  The flag off
    before a read that raises: on after it, with the exception of the
    flash as the outcome. *)
Lemma Xula_cfg_flash_saves_enables_restores_witness :
  (exists s2,
      XulaBase_read_cfg_flash (bench no_fault sample_info healthy_dut)
        {| cls := Xula50; xsusb_id := 0 |} 0 256
        (flag_enabled (initial_state 0)) = (Ok [], s2) /\
      read_cfg_flash (bench no_fault sample_info healthy_dut)
        {| cls := Xula50; xsusb_id := 0 |} 0 256 (initial_state 0)
      = (Ok [], flag_restored (initial_state 0) s2) /\
      cfg_flash_flag (flag_restored (initial_state 0) s2) = 0)
  /\
  (exists s2,
      XulaBase_erase_cfg_flash (bench no_fault sample_info healthy_dut)
        {| cls := Xula200; xsusb_id := 0 |} None None
        (flag_enabled (initial_state 1)) = (Ok tt, s2) /\
      erase_cfg_flash (bench no_fault sample_info healthy_dut)
        {| cls := Xula200; xsusb_id := 0 |} None None (initial_state 1)
      = (Ok tt, flag_restored (initial_state 1) s2) /\
      cfg_flash_flag (flag_restored (initial_state 1) s2) = 1)
  /\
  (exists s2,
      read_cfg_flash (bench flash_fails sample_info healthy_dut)
        {| cls := Xula50; xsusb_id := 0 |} 0 256 (initial_state 0)
      = (Raise (XsError "flash timeout"), s2) /\
      cfg_flash_flag s2 = 1).
Proof.
  split; [|split].
  - destruct (Xula_cfg_flash_saves_enables_restores
                (bench no_fault sample_info healthy_dut)
                {| cls := Xula50; xsusb_id := 0 |} (initial_state 0)
                eq_refl eq_refl eq_refl) as [Hread _].
    specialize (Hread 0 256). unfold saves_enables_restores in Hread.
    destruct (XulaBase_read_cfg_flash (bench no_fault sample_info healthy_dut)
                {| cls := Xula50; xsusb_id := 0 |} 0 256
                (flag_enabled (initial_state 0))) as [[a|e|] s2] eqn:E;
      try (vm_compute in E; discriminate E).
    assert (Ha : a = []) by (vm_compute in E; congruence). subst a.
    exists s2. split; [reflexivity|]. split; [|reflexivity].
    apply (proj2 Hread). reflexivity.
  - destruct (Xula_cfg_flash_saves_enables_restores
                (bench no_fault sample_info healthy_dut)
                {| cls := Xula200; xsusb_id := 0 |} (initial_state 1)
                eq_refl eq_refl eq_refl) as [_ [_ Herase]].
    specialize (Herase None None). unfold saves_enables_restores in Herase.
    destruct (XulaBase_erase_cfg_flash
                (bench no_fault sample_info healthy_dut)
                {| cls := Xula200; xsusb_id := 0 |} None None
                (flag_enabled (initial_state 1))) as [[[]|e|] s2] eqn:E;
      try (vm_compute in E; discriminate E).
    exists s2. split; [reflexivity|]. split; [|reflexivity].
    apply (proj2 Herase). reflexivity.
  - destruct (Xula_cfg_flash_saves_enables_restores
                (bench flash_fails sample_info healthy_dut)
                {| cls := Xula50; xsusb_id := 0 |} (initial_state 0)
                eq_refl eq_refl eq_refl) as [Hread _].
    specialize (Hread 0 256). unfold saves_enables_restores in Hread.
    destruct (XulaBase_read_cfg_flash
                (bench flash_fails sample_info healthy_dut)
                {| cls := Xula50; xsusb_id := 0 |} 0 256
                (flag_enabled (initial_state 0))) as [[a|e|] s2] eqn:E;
      try (vm_compute in E; discriminate E).
    assert (He : e = XsError "flash timeout")
      by (vm_compute in E; congruence). subst e.
    exists s2. exact Hread.
Defined.

(** A flash read on a XuLA-50 whose flag was off: what is called, in
    order, and the flag off again at the end. *)
Example read_cfg_flash_trace :
  read_cfg_flash (bench no_fault sample_info healthy_dut)
    {| cls := Xula50; xsusb_id := 0 |} 0 256 (initial_state 0)
  = (Ok [],
     {| trace :=
          [micro_get_cfg_flash_flag; micro_enable_cfg_flash;
           pub_sendMessage "Configuring FPGA for reading configuration flash";
           pub_sendMessage "Downloading bitstream";
           xsusb_set_prog 1; xsusb_set_prog 0; xsusb_set_prog 1; time_sleep;
           fpga_configure Xc3s50avq100 "/opt/xstools/xula/fintf_jtag_50.bit";
           pub_sendMessage "Download complete";
           pub_sendMessage "Reading configuration flash";
           W25X_new 2; cfg_flash_read 0 256;
           pub_sendMessage "Configuration flash read done";
           micro_set_cfg_flash_flag 0];
        fetches := 0; polls := 0; cfg_flash_flag := 0 |}).
Proof. reflexivity. Qed.

(** The same read with a flash that times out: the error comes out and
    the flag stays on. *)
Example read_cfg_flash_failure :
  fst (read_cfg_flash (bench flash_fails sample_info healthy_dut)
         {| cls := Xula50; xsusb_id := 0 |} 0 256 (initial_state 0))
  = Raise (XsError "flash timeout") /\
  cfg_flash_flag
    (snd (read_cfg_flash (bench flash_fails sample_info healthy_dut)
            {| cls := Xula50; xsusb_id := 0 |} 0 256 (initial_state 0)))
  = 1.
Proof. split; reflexivity. Qed.

(** ** More on the information frame *)

Lemma getitem_nth (a : list Z) (i : nat) (s : state) :
  (i < List.length a)%nat -> getitem a i s = (Ok (nth i a 0), s).
Proof.
  intros Hi. unfold getitem.
  now rewrite (nth_error_nth' a 0 Hi).
Qed.

(** Parsing makes no call: the state [get_board_info] ends in is the one
    the fetch left. *)
Lemma get_board_info_state hw s :
  snd (get_board_info hw s) = snd (fetch_info hw s).
Proof.
  unfold get_board_info, bind at 1.
  destruct (fetch_info hw s) as [[info|e|] s1]; try reflexivity.
  destruct (negb (Z.land (sum info) 0xff =? 0)); [reflexivity|].
  unfold bind, getitem.
  destruct (nth_error info 1); [|reflexivity].
  destruct (nth_error info 2); [|reflexivity].
  destruct (nth_error info 3); [|reflexivity].
  destruct (nth_error info 4); [|reflexivity].
  destruct (index 0 (skipn 5 info)); reflexivity.
Qed.

(** What becomes of a frame with a good checksum and a full header. *)
Lemma get_board_info_parse hw s s' info :
  fetch_info hw s = (Ok info, s') ->
  sum info mod 256 = 0 ->
  (5 <= List.length info)%nat ->
  get_board_info hw s
  = match index 0 (skipn 5 info) with
    | None => (Raise (ValueError "array.index(x): x not in list"), s')
    | Some desc_len =>
        (Ok {| ID := fmt_02x (nth 1 info 0) ++ fmt_02x (nth 2 info 0);
               VERSION := fmt_d (nth 3 info 0) ++ "." ++ fmt_d (nth 4 info 0);
               DESCRIPTION := tostring (firstn desc_len (skipn 5 info)) |},
         s')
    end.
Proof.
  intros Hfetch Hsum Hlen.
  unfold get_board_info. rewrite (bind_Ok _ _ _ _ _ Hfetch).
  rewrite land_0xff, Hsum. cbn [Z.eqb negb].
  rewrite (bind_Ok _ _ _ _ _ (getitem_nth info 1 s' ltac:(lia))).
  rewrite (bind_Ok _ _ _ _ _ (getitem_nth info 2 s' ltac:(lia))).
  rewrite (bind_Ok _ _ _ _ _ (getitem_nth info 3 s' ltac:(lia))).
  rewrite (bind_Ok _ _ _ _ _ (getitem_nth info 4 s' ltac:(lia))).
  destruct (index 0 (skipn 5 info)); reflexivity.
Qed.

(** A frame too short for its header never yields a [board_info]. *)
Lemma get_board_info_short hw s s' info :
  fetch_info hw s = (Ok info, s') ->
  (List.length info < 5)%nat ->
  forall bi, get_board_info hw s <> (Ok bi, s').
Proof.
  intros Hfetch Hlen bi.
  unfold get_board_info. rewrite (bind_Ok _ _ _ _ _ Hfetch).
  destruct (negb (Z.land (sum info) 0xff =? 0)); [discriminate|].
  unfold bind, getitem.
  destruct (nth_error info 1); [|discriminate].
  destruct (nth_error info 2); [|discriminate].
  destruct (nth_error info 3); [|discriminate].
  destruct (nth_error info 4) eqn:E; [|discriminate].
  assert (nth_error info 4 <> None) as Hn by congruence.
  apply nth_error_Some in Hn. lia.
Qed.

(** [a.index(x)] is the position of the first [x]. *)
Lemma index_Some (x : Z) (a : list Z) : forall n,
  index x a = Some n ->
  (n < List.length a)%nat /\
  nth n a (x + 1) = x /\
  ~ In x (firstn n a).
Proof.
  induction a as [|y r IH]; intros n H; [discriminate|].
  cbn [index] in H.
  destruct (Z.eqb_spec y x) as [E|E].
  - injection H as <-. cbn. repeat split; auto; lia.
  - destruct (index x r) as [k|]; [|discriminate].
    injection H as <-. destruct (IH k eq_refl) as [H1 [H2 H3]].
    cbn. repeat split; [lia|exact H2|].
    intros [Hy|Hin]; [contradiction|exact (H3 Hin)].
Qed.

Lemma index_None (x : Z) (a : list Z) :
  index x a = None -> ~ In x a.
Proof.
  induction a as [|y r IH]; intros H; [intros []|].
  cbn [index] in H.
  destruct (Z.eqb_spec y x) as [E|E]; [discriminate|].
  destruct (index x r); [discriminate|].
  intros [Hy|Hin]; [contradiction|exact (IH eq_refl Hin)].
Qed.

Lemma length_tostring (a : list Z) :
  String.length (tostring a) = List.length a.
Proof. induction a as [|b r IH]; cbn; congruence. Qed.

(** X1: [get_board_info] returns a dictionary exactly when the fetch
    delivers a frame whose bytes sum to 0 modulo 256 and which has a zero
    byte at or after offset 5.  The description then has one character for
    each byte between offset 5 and the first such zero byte, none of which
    is zero. *)
Theorem get_board_info_Ok_iff hw s bi s' :
  get_board_info hw s = (Ok bi, s') <->
  exists info desc_len,
    fetch_info hw s = (Ok info, s') /\
    sum info mod 256 = 0 /\
    index 0 (skipn 5 info) = Some desc_len /\
    (5 + desc_len < List.length info)%nat /\
    nth (5 + desc_len) info 1 = 0 /\
    ~ In 0 (firstn desc_len (skipn 5 info)) /\
    String.length (DESCRIPTION bi) = desc_len /\
    bi = {| ID := fmt_02x (nth 1 info 0) ++ fmt_02x (nth 2 info 0);
            VERSION := fmt_d (nth 3 info 0) ++ "." ++ fmt_d (nth 4 info 0);
            DESCRIPTION := tostring (firstn desc_len (skipn 5 info)) |}.
Proof.
  split.
  - intros H.
    pose proof (get_board_info_state hw s) as Hst. rewrite H in Hst.
    cbn [snd] in Hst.
    destruct (fetch_info hw s) as [[info|e|] s1] eqn:Hfetch;
      cbn [snd] in Hst; subst s1;
      try (unfold get_board_info, bind in H; rewrite Hfetch in H;
           discriminate).
    destruct (Z.eq_dec (sum info mod 256) 0) as [Hsum|Hsum].
    2:{ unfold get_board_info in H. rewrite (bind_Ok _ _ _ _ _ Hfetch) in H.
        rewrite land_0xff in H.
        destruct (Z.eqb_spec (sum info mod 256) 0); [contradiction|].
        discriminate. }
    destruct (le_lt_dec 5 (List.length info)) as [Hlen|Hlen].
    2:{ exfalso. exact (get_board_info_short _ _ _ _ Hfetch Hlen bi H). }
    rewrite (get_board_info_parse _ _ _ _ Hfetch Hsum Hlen) in H.
    destruct (index 0 (skipn 5 info)) as [n|] eqn:Hidx; [|discriminate].
    destruct (index_Some _ _ _ Hidx) as [H1 [H2 H3]].
    assert (Hl : String.length (tostring (firstn n (skipn 5 info))) = n)
      by (rewrite length_tostring, length_firstn; lia).
    rewrite length_skipn in H1. rewrite nth_skipn in H2.
    injection H as <-.
    exists info, n. repeat split; auto. lia.
  - intros [info [n [Hfetch [Hsum [Hidx [Hlen [_ [_ [_ ->]]]]]]]]].
    rewrite (get_board_info_parse _ _ _ _ Hfetch Hsum ltac:(lia)).
    now rewrite Hidx.
Qed.

(** X2: unless the first fetch raises an [XsError], [get_board_info] makes
    that one call and no other: no reset, no second fetch. *)
Theorem get_board_info_single_fetch hw s :
  (forall e,
      hw_fault hw (List.length (trace s)) xsusb_get_info = Some e ->
      isinstance_XsError e = false) ->
  trace (snd (get_board_info hw s)) = (trace s ++ [xsusb_get_info])%list.
Proof.
  intros H. rewrite get_board_info_state.
  unfold fetch_info, try_except_XsError at 1, get_info at 1.
  destruct (hw_fault hw (List.length (trace s)) xsusb_get_info) as [e|].
  - now rewrite (H e eq_refl).
  - reflexivity.
Qed.

Lemma get_board_info_single_fetch_witness :
  trace (snd (get_board_info (bench port_busy unterminated_info healthy_dut)
                (initial_state 0)))
  = [xsusb_get_info].
Proof.
  apply (get_board_info_single_fetch
           (bench port_busy unterminated_info healthy_dut) (initial_state 0)).
  intros e H. discriminate H.
Defined.

(** ** The firmware version and the connectivity checks *)

Lemma version_check_bytes :
  forallb (fun a =>
             forallb (fun b => version_check (Z.of_nat a) (Z.of_nat b))
               (seq 0 256))
    (seq 0 256) = true.
Proof. vm_compute. reflexivity. Qed.

(** On bytes, ['%d.%d'] always reads back as a number. *)
Lemma float_version (major minor : Z) :
  is_byte major -> is_byte minor ->
  exists v,
    float (fmt_d major ++ "." ++ fmt_d minor) = Some v /\
    Qltb v (12 # 10) = reads_below_1_2 major minor.
Proof.
  intros Ha Hb. unfold is_byte in Ha, Hb.
  pose proof version_check_bytes as H.
  rewrite forallb_forall in H.
  specialize (H (Z.to_nat major)). rewrite in_seq in H.
  specialize (H ltac:(lia)). rewrite forallb_forall in H.
  specialize (H (Z.to_nat minor)). rewrite in_seq in H.
  specialize (H ltac:(lia)).
  rewrite !Z2Nat.id in H by lia.
  unfold version_check in H.
  destruct (float (fmt_d major ++ "." ++ fmt_d minor)) as [v|];
    [|discriminate].
  exists v. split; [reflexivity|]. now apply Bool.eqb_prop.
Qed.

Lemma with_version_eq hw (k : Q -> M bool) s :
  with_version hw k s
  = match get_board_fmw_version hw s with
    | (Ok version, s') => k version s'
    | (Raise e, s') =>
        if isinstance_XsError e then (Ok false, s') else (Raise e, s')
    | (OutOfFuel, s') => (OutOfFuel, s')
    end.
Proof.
  unfold with_version, bind, try_except_XsError, ret.
  destruct (get_board_fmw_version hw s) as [[v|e|] s']; try reflexivity.
  destruct (isinstance_XsError e); reflexivity.
Qed.

Lemma get_board_fmw_version_Raise hw s e s' :
  get_board_info hw s = (Raise e, s') ->
  get_board_fmw_version hw s = (Raise e, s').
Proof.
  intros H. unfold get_board_fmw_version. now rewrite (bind_Raise _ _ _ _ _ H).
Qed.

(** X3: when the board's information cannot be had because of an
    [XsError] (the fatal one after two failed fetches, or the recoverable
    one of a bad checksum), [is_connected] of every class answers [False]
    instead of raising, and it does so without a call on the FPGA: it ends
    in the state [get_board_info] left. *)
Theorem is_connected_False_on_XsError hw self s e s' :
  get_board_info hw s = (Raise e, s') ->
  isinstance_XsError e = true ->
  is_connected hw self s = (Ok false, s').
Proof.
  intros H He. apply get_board_fmw_version_Raise in H.
  unfold is_connected, XulaOldFmw_is_connected, XulaNoJtag_is_connected,
    XulaMicro_is_connected.
  destruct (cls self); rewrite with_version_eq, H, He; reflexivity.
Qed.

Lemma is_connected_False_on_XsError_witness :
  is_connected (bench unplugged sample_info healthy_dut)
    {| cls := Xula2lx25; xsusb_id := 0 |} (initial_state 0)
  = (Ok false,
     {| trace := [xsusb_get_info; xsusb_reset]; fetches := 0; polls := 0;
        cfg_flash_flag := 0 |}).
Proof.
  exact (is_connected_False_on_XsError
           (bench unplugged sample_info healthy_dut)
           {| cls := Xula2lx25; xsusb_id := 0 |} (initial_state 0)
           (XsMajorError "Unable to get XESS board information.") _
           eq_refl eq_refl).
Defined.

(** X4: [XulaOldFmw.is_connected] and [XulaNoJtag.is_connected] never both
    answer [True] for the same board; they leave the same state behind,
    and whenever the firmware version can be read exactly one of them
    answers [True]. *)
Theorem unknown_boards_exclusive hw self1 self2 s a s1 b s2 :
  XulaOldFmw_is_connected hw self1 s = (Ok a, s1) ->
  XulaNoJtag_is_connected hw self2 s = (Ok b, s2) ->
  a && b = false /\
  s1 = s2 /\
  match fst (get_board_fmw_version hw s) with
  | Ok _ => b = negb a
  | _ => a = false /\ b = false
  end.
Proof.
  unfold XulaOldFmw_is_connected, XulaNoJtag_is_connected.
  rewrite !with_version_eq.
  destruct (get_board_fmw_version hw s) as [[v|e|] s'].
  - unfold ret. intros H1 H2. injection H1 as <- <-. injection H2 as <- <-.
    cbn [fst]. repeat split. now destruct (Qltb v (12 # 10)).
  - destruct (isinstance_XsError e); [|discriminate].
    intros H1 H2. injection H1 as <- <-. injection H2 as <- <-.
    cbn [fst]. auto.
  - discriminate.
Qed.

Lemma unknown_boards_exclusive_witness :
  true && false = false /\
  {| trace := [xsusb_get_info]; fetches := 1; polls := 0;
     cfg_flash_flag := 0 |}
  = {| trace := [xsusb_get_info]; fetches := 1; polls := 0;
       cfg_flash_flag := 0 |} /\
  false = negb true.
Proof.
  exact (unknown_boards_exclusive
           (bench no_fault old_firmware_info healthy_dut)
           {| cls := XulaOldFmw; xsusb_id := 0 |}
           {| cls := XulaNoJtag; xsusb_id := 0 |} (initial_state 0)
           true _ false _ eq_refl eq_refl).
Defined.

Lemma get_board_fmw_version_bytes hw s s' info desc_len :
  fetch_info hw s = (Ok info, s') ->
  sum info mod 256 = 0 ->
  index 0 (skipn 5 info) = Some desc_len ->
  is_byte (nth 3 info 0) ->
  is_byte (nth 4 info 0) ->
  exists v,
    get_board_fmw_version hw s = (Ok v, s') /\
    Qltb v (12 # 10) = reads_below_1_2 (nth 3 info 0) (nth 4 info 0).
Proof.
  intros Hfetch Hsum Hidx H3 H4.
  assert (Hlen : (5 <= List.length info)%nat).
  { destruct (index_Some _ _ _ Hidx) as [H _].
    rewrite length_skipn in H. lia. }
  destruct (float_version _ _ H3 H4) as [v [Hv Hlt]].
  exists v. split; [|exact Hlt].
  unfold get_board_fmw_version.
  rewrite (bind_Ok _ _ _ _ _
             (eq_trans (get_board_info_parse _ _ _ _ Hfetch Hsum Hlen)
                ltac:(rewrite Hidx; reflexivity))).
  cbn [VERSION]. now rewrite Hv.
Qed.

(** X5: on a readable frame with version bytes [major] and [minor],
    [XulaOldFmw.is_connected] is true exactly for the versions 0.x, 1.0,
    1.1, 1.10 to 1.19 and 1.100 to 1.199, and [XulaNoJtag.is_connected] is
    true for all others: the minor number is read as a decimal fraction,
    so 1.10 counts as older than 1.2. *)
Theorem old_firmware_versions hw self s s' info desc_len :
  fetch_info hw s = (Ok info, s') ->
  sum info mod 256 = 0 ->
  index 0 (skipn 5 info) = Some desc_len ->
  is_byte (nth 3 info 0) ->
  is_byte (nth 4 info 0) ->
  XulaOldFmw_is_connected hw self s
  = (Ok (reads_below_1_2 (nth 3 info 0) (nth 4 info 0)), s') /\
  XulaNoJtag_is_connected hw self s
  = (Ok (negb (reads_below_1_2 (nth 3 info 0) (nth 4 info 0))), s').
Proof.
  intros Hfetch Hsum Hidx H3 H4.
  destruct (get_board_fmw_version_bytes _ _ _ _ _ Hfetch Hsum Hidx H3 H4)
    as [v [Hv Hlt]].
  unfold XulaOldFmw_is_connected, XulaNoJtag_is_connected.
  rewrite !with_version_eq, Hv. unfold ret. now rewrite Hlt.
Qed.

Lemma old_firmware_versions_witness :
  XulaOldFmw_is_connected (bench no_fault [177; 1; 2; 1; 10; 65; 0] healthy_dut)
    {| cls := XulaOldFmw; xsusb_id := 0 |} (initial_state 0)
  = (Ok true, after_fetch (initial_state 0)) /\
  XulaNoJtag_is_connected (bench no_fault [177; 1; 2; 1; 10; 65; 0] healthy_dut)
    {| cls := XulaOldFmw; xsusb_id := 0 |} (initial_state 0)
  = (Ok false, after_fetch (initial_state 0)).
Proof.
  apply (old_firmware_versions
           (bench no_fault [177; 1; 2; 1; 10; 65; 0] healthy_dut)
           {| cls := XulaOldFmw; xsusb_id := 0 |} (initial_state 0)
           _ [177; 1; 2; 1; 10; 65; 0] 1%nat);
    try reflexivity; unfold is_byte; cbn; lia.
Defined.

(** ** More on the identification *)

Lemma fuel_free_ret {A} (a : A) : fuel_free (ret a).
Proof. intros s. discriminate. Qed.

Lemma fuel_free_raise {A} (e : exn) : fuel_free (@raise A e).
Proof. intros s. discriminate. Qed.

Lemma fuel_free_bind {A B} (m : M A) (k : A -> M B) :
  fuel_free m -> (forall a, fuel_free (k a)) -> fuel_free (bind m k).
Proof.
  intros Hm Hk s. unfold bind. specialize (Hm s).
  destruct (m s) as [[a|e|] s1]; cbn [fst] in *.
  - apply Hk.
  - discriminate.
  - contradiction.
Qed.

Lemma fuel_free_try {A} (m h : M A) :
  fuel_free m -> fuel_free h -> fuel_free (try_except_XsError m h).
Proof.
  intros Hm Hh s. unfold try_except_XsError. specialize (Hm s).
  destruct (m s) as [[a|e|] s1]; cbn [fst] in *.
  - discriminate.
  - destruct (isinstance_XsError e); [apply Hh|discriminate].
  - contradiction.
Qed.

Lemma fuel_free_extcall hw c : fuel_free (extcall hw c).
Proof.
  intros s. unfold extcall. destruct (hw_fault hw _ c); discriminate.
Qed.

Lemma fuel_free_get_info hw : fuel_free (get_info hw).
Proof.
  intros s. unfold get_info. destruct (hw_fault hw _ _); discriminate.
Qed.

Lemma fuel_free_fpga_connected hw k : fuel_free (fpga_connected hw k).
Proof.
  intros s. unfold fpga_connected. destruct (hw_fault hw _ _); discriminate.
Qed.

Lemma fuel_free_getitem a i : fuel_free (getitem a i).
Proof.
  unfold getitem. destruct (nth_error a i);
    [apply fuel_free_ret|apply fuel_free_raise].
Qed.

Ltac fuel_free_tac :=
  repeat first
    [ apply fuel_free_ret | apply fuel_free_raise | apply fuel_free_extcall
    | apply fuel_free_get_info | apply fuel_free_fpga_connected
    | apply fuel_free_getitem
    | apply fuel_free_try
    | apply fuel_free_bind; [|intros ?]
    | match goal with
      | |- fuel_free (if ?b then _ else _) => destruct b
      | |- fuel_free (match ?x with _ => _ end) => destruct x
      end ].

Lemma fuel_free_construct hw c id : fuel_free (construct hw c id).
Proof. unfold construct, XulaMicro___init__. fuel_free_tac. Qed.

Lemma fuel_free_is_connected hw self : fuel_free (is_connected hw self).
Proof.
  unfold is_connected, XulaOldFmw_is_connected, XulaNoJtag_is_connected,
    XulaMicro_is_connected, with_version, get_board_fmw_version,
    get_board_info, fetch_info, reset.
  destruct (cls self); fuel_free_tac.
Qed.

Lemma construct_Ok hw c id s x s' :
  construct hw c id s = (Ok x, s') -> x = {| cls := c; xsusb_id := id |}.
Proof.
  unfold construct, bind, ret.
  destruct (XulaMicro___init__ hw id s) as [[[]|e|] s1]; try discriminate.
  destruct (match fpga c with
            | Some k => extcall hw (Fpga_new k)
            | None => fun s0 => (Ok tt, s0)
            end s1) as [[[]|e|] s2]; try discriminate.
  intros H. now injection H as <- _.
Qed.

(** One turn of the probing loop. *)
Lemma probe_cons hw id c cs s :
  probe hw id (c :: cs) s
  = match construct hw c id s with
    | (Ok xsboard, s1) =>
        match is_connected hw xsboard s1 with
        | (Ok true, s2) => (Ok (Some xsboard), s2)
        | (Ok false, s2) => probe hw id cs s2
        | (Raise e, s2) =>
            if isinstance_XsError e then probe hw id cs s2 else (Raise e, s2)
        | (OutOfFuel, s2) => (OutOfFuel, s2)
        end
    | (Raise e, s1) =>
        if isinstance_XsError e then probe hw id cs s1 else (Raise e, s1)
    | (OutOfFuel, s1) => (OutOfFuel, s1)
    end.
Proof.
  cbn [probe]. unfold bind, try_except_XsError, ret.
  destruct (construct hw c id s) as [[x|e|] s1].
  - destruct (is_connected hw x s1) as [[[|]|e|] s2]; try reflexivity.
    destruct (isinstance_XsError e); reflexivity.
  - destruct (isinstance_XsError e); reflexivity.
  - reflexivity.
Qed.

Lemma select_by_name_no_match hw nm id otherwise : forall cs,
  (forall c, In c cs -> lower nm <> lower (name c)) ->
  select_by_name hw nm id cs otherwise = otherwise.
Proof.
  induction cs as [|c cs IH]; intros H; [reflexivity|].
  cbn [select_by_name].
  destruct (String.eqb_spec (lower nm) (lower (name c))) as [E|_].
  - exfalso. apply (H c); [now left|exact E].
  - apply IH. intros x Hx. apply H. now right.
Qed.

Lemma probe_outcome hw id : forall cs s,
  match fst (probe hw id cs s) with
  | Ok _ => True
  | Raise e => isinstance_XsError e = false
  | OutOfFuel => False
  end.
Proof.
  induction cs as [|c cs IH]; intros s; [exact I|].
  rewrite probe_cons.
  pose proof (fuel_free_construct hw c id s) as Hc.
  destruct (construct hw c id s) as [[x|e|] s1]; cbn [fst] in Hc.
  - pose proof (fuel_free_is_connected hw x s1) as Hi.
    destruct (is_connected hw x s1) as [[[|]|e|] s2]; cbn [fst] in Hi.
    + exact I.
    + apply IH.
    + destruct (isinstance_XsError e) eqn:E; [apply IH|exact E].
    + contradiction.
  - destruct (isinstance_XsError e) eqn:E; [apply IH|exact E].
  - contradiction.
Qed.

(** X6: called without a name that a descriptor carries, [get_xsboard]
    never ends with an [XsError]: whatever hardware errors occur while
    probing, the caller gets a board or [None], and the only exceptions
    that can reach it are those that are no [XsError]. *)
Theorem get_xsboard_never_XsError hw xsusb_id nm s :
  (forall c, In c board_classes -> lower nm <> lower (name c)) ->
  match fst (get_xsboard hw xsusb_id nm s) with
  | Ok _ => True
  | Raise e => isinstance_XsError e = false
  | OutOfFuel => False
  end.
Proof.
  intros H. unfold get_xsboard. destruct xsusb_id as [id|]; [|exact I].
  rewrite (select_by_name_no_match _ _ _ _ _ H). apply probe_outcome.
Qed.

Lemma get_xsboard_never_XsError_witness :
  match fst (get_xsboard (bench unplugged sample_info healthy_dut) (Some 0) ""
               (initial_state 0)) with
  | Ok _ => True
  | Raise e => isinstance_XsError e = false
  | OutOfFuel => False
  end.
Proof.
  apply (get_xsboard_never_XsError (bench unplugged sample_info healthy_dut)
           (Some 0) "" (initial_state 0)).
  intros c _. destruct c; vm_compute; discriminate.
Defined.

Lemma probe_Some hw id : forall cs s x s',
  probe hw id cs s = (Ok (Some x), s') ->
  In (cls x) cs /\ xsusb_id x = id /\
  exists s1, is_connected hw x s1 = (Ok true, s').
Proof.
  induction cs as [|c cs IH]; intros s x s' H; [discriminate|].
  rewrite probe_cons in H.
  assert (Hrec : forall s2,
             probe hw id cs s2 = (Ok (Some x), s') ->
             In (cls x) (c :: cs) /\ xsusb_id x = id /\
             exists s1, is_connected hw x s1 = (Ok true, s')).
  { intros s2 H2. destruct (IH _ _ _ H2) as [H3 H4].
    split; [now right|exact H4]. }
  destruct (construct hw c id s) as [[y|e|] s1] eqn:Hc.
  - pose proof (construct_Ok _ _ _ _ _ _ Hc) as Hy.
    destruct (is_connected hw y s1) as [[[|]|e|] s2] eqn:Hi.
    + injection H as <- <-. subst y. cbn [cls xsusb_id].
      split; [now left|]. split; [reflexivity|]. now exists s1.
    + eauto.
    + destruct (isinstance_XsError e); [eauto|discriminate].
    + discriminate.
  - destruct (isinstance_XsError e); [eauto|discriminate].
  - discriminate.
Qed.

Lemma select_by_name_Some hw nm id otherwise : forall cs s x s',
  select_by_name hw nm id cs otherwise s = (Ok (Some x), s') ->
  (In (cls x) cs /\ xsusb_id x = id /\ lower nm = lower (name (cls x))) \/
  otherwise s = (Ok (Some x), s').
Proof.
  induction cs as [|c cs IH]; intros s x s' H; [now right|].
  cbn [select_by_name] in H.
  destruct (String.eqb_spec (lower nm) (lower (name c))) as [E|_].
  - left. unfold bind, ret in H.
    destruct (construct hw c id s) as [[y|e|] s1] eqn:Hc; try discriminate.
    injection H as <- <-. rewrite (construct_Ok _ _ _ _ _ _ Hc).
    cbn [cls xsusb_id]. split; [now left|]. split; [reflexivity|exact E].
  - destruct (IH _ _ _ H) as [[H1 H2]|H1]; [left|now right].
    split; [now right|exact H2].
Qed.

(** X7: a board that [get_xsboard] returns is bound to the USB port that
    was asked for, its class is one of the six of the priority list, and
    either it carries the name that was asked for or its own connectivity
    check has just answered [True]. *)
Theorem get_xsboard_instance hw port nm s x s' :
  get_xsboard hw port nm s = (Ok (Some x), s') ->
  port = Some (xsusb_id x) /\
  In (cls x) board_classes /\
  (lower nm = lower (name (cls x)) \/
   exists s1, is_connected hw x s1 = (Ok true, s')).
Proof.
  unfold get_xsboard. destruct port as [id|]; [|discriminate].
  intros H.
  destruct (select_by_name_Some _ _ _ _ _ _ _ _ H) as [[H1 [H2 H3]]|H1].
  - subst id. auto.
  - destruct (probe_Some _ _ _ _ _ _ H1) as [H2 [H3 H4]]. subst id. auto.
Qed.

Lemma get_xsboard_instance_witness :
  Some 0 = Some 0 /\
  In Xula2lx25 board_classes /\
  (lower "" = lower (name Xula2lx25) \/
   exists s1,
     is_connected (bench no_fault sample_info healthy_dut)
       {| cls := Xula2lx25; xsusb_id := 0 |} s1
     = (Ok true, snd (get_xsboard (bench no_fault sample_info healthy_dut)
                        (Some 0) "" (initial_state 0)))).
Proof.
  exact (get_xsboard_instance (bench no_fault sample_info healthy_dut)
           (Some 0) "" (initial_state 0)
           {| cls := Xula2lx25; xsusb_id := 0 |} _ eq_refl).
Defined.

(** X8: a frame with a good checksum and a full header but no zero byte
    after it does not count as "not this variant": the [ValueError] of
    [desc.index(0)] passes through [is_connected] and through the probing
    loop, and ends the identification at the first descriptor tried. *)
Theorem probe_unterminated hw id c cs s x s1 s2 info :
  construct hw c id s = (Ok x, s1) ->
  fetch_info hw s1 = (Ok info, s2) ->
  sum info mod 256 = 0 ->
  (5 <= List.length info)%nat ->
  index 0 (skipn 5 info) = None ->
  probe hw id (c :: cs) s
  = (Raise (ValueError "array.index(x): x not in list"), s2).
Proof.
  intros Hc Hfetch Hsum Hlen Hidx.
  rewrite probe_cons, Hc.
  pose proof (get_board_info_parse _ _ _ _ Hfetch Hsum Hlen) as Hinfo.
  rewrite Hidx in Hinfo. apply get_board_fmw_version_Raise in Hinfo.
  assert (Hi : is_connected hw x s1
               = (Raise (ValueError "array.index(x): x not in list"), s2)).
  { unfold is_connected, XulaOldFmw_is_connected, XulaNoJtag_is_connected,
      XulaMicro_is_connected.
    destruct (cls x); rewrite with_version_eq, Hinfo; reflexivity. }
  rewrite Hi. reflexivity.
Qed.

Lemma probe_unterminated_witness :
  probe (bench no_fault unterminated_info healthy_dut) 0 board_classes
    (initial_state 0)
  = (Raise (ValueError "array.index(x): x not in list"),
     {| trace := [XsUsb_new 0; XsJtag_new; Pic18f14k50_new; xsusb_get_info];
        fetches := 1; polls := 0; cfg_flash_flag := 0 |}).
Proof.
  apply (probe_unterminated (bench no_fault unterminated_info healthy_dut) 0
           XulaOldFmw [Xula50; Xula200; Xula2lx25; Xula2lx9; XulaNoJtag]
           (initial_state 0) {| cls := XulaOldFmw; xsusb_id := 0 |}
           {| trace := [XsUsb_new 0; XsJtag_new; Pic18f14k50_new];
              fetches := 0; polls := 0; cfg_flash_flag := 0 |}
           _ unterminated_info); try reflexivity.
  cbn. lia.
Defined.

Section Responsive.

(** A board that answers every call, with one readable information
    frame. *)
Variable hw : hardware.
Variable info : list Z.
Variable desc_len : nat.
Hypothesis Hquiet : quiet hw.
Hypothesis Hinfo : forall n, hw_info hw n = info.
Hypothesis Hsum : sum info mod 256 = 0.
Hypothesis Hdesc : index 0 (skipn 5 info) = Some desc_len.
Hypothesis Hmajor : is_byte (nth 3 info 0).
Hypothesis Hminor : is_byte (nth 4 info 0).

Lemma construct_responsive c id s :
  exists s1, construct hw c id s = (Ok {| cls := c; xsusb_id := id |}, s1).
Proof.
  unfold construct, XulaMicro___init__, bind, extcall, ret.
  rewrite !Hquiet. destruct (fpga c); [rewrite Hquiet|]; eauto.
Qed.

Lemma fetch_info_responsive s :
  fetch_info hw s = (Ok info, after_fetch s).
Proof.
  unfold fetch_info, try_except_XsError, get_info.
  now rewrite Hquiet, Hinfo.
Qed.

Lemma is_connected_responsive self s :
  exists b s',
    is_connected hw self s = (Ok b, s') /\
    (cls self = XulaOldFmw ->
     b = reads_below_1_2 (nth 3 info 0) (nth 4 info 0)) /\
    (cls self = XulaNoJtag ->
     b = negb (reads_below_1_2 (nth 3 info 0) (nth 4 info 0))).
Proof.
  destruct (get_board_fmw_version_bytes hw s _ _ _
              (fetch_info_responsive s) Hsum Hdesc Hmajor Hminor)
    as [v [Hv Hlt]].
  unfold is_connected, XulaOldFmw_is_connected, XulaNoJtag_is_connected,
    XulaMicro_is_connected.
  destruct (cls self) eqn:Hcls; rewrite with_version_eq, Hv, Hlt;
    unfold ret;
    try (do 2 eexists; split; [reflexivity|]; split; intros; congruence);
    (destruct (reads_below_1_2 (nth 3 info 0) (nth 4 info 0));
     [|cbn [fpga]; unfold fpga_connected; rewrite Hquiet];
     do 2 eexists; (split; [reflexivity|]); split; discriminate).
Qed.

Lemma probe_responsive id c cs s :
  exists (b : bool) s1,
    probe hw id (c :: cs) s
    = (if b then (Ok (Some {| cls := c; xsusb_id := id |}), s1)
       else probe hw id cs s1) /\
    (c = XulaOldFmw -> b = reads_below_1_2 (nth 3 info 0) (nth 4 info 0)) /\
    (c = XulaNoJtag ->
     b = negb (reads_below_1_2 (nth 3 info 0) (nth 4 info 0))).
Proof.
  destruct (construct_responsive c id s) as [s1 Hc].
  destruct (is_connected_responsive {| cls := c; xsusb_id := id |} s1)
    as [b [s2 [Hi [H1 H2]]]].
  exists b, s2. rewrite probe_cons, Hc, Hi.
  split; [now destruct b|]. split; assumption.
Qed.

(** The FPGA that is there, whenever it is asked. *)
Variable answers : fpga_kind -> bool.
Hypothesis Hfpga : forall n k, hw_fpga_connected hw n k = answers k.

(** X9: a board that answers every call, delivers one readable frame and
    has a fixed FPGA, or none, behind its JTAG port is always identified:
    [get_xsboard], called without a name, returns a board and never
    [None].  The board is a [XulaOldFmw] when the version reads below
    1.2; otherwise it is of the first class among [Xula50], [Xula200],
    [Xula2lx25] and [Xula2lx9], in this order, whose FPGA is there; and
    only when none of the four is there is it a [XulaNoJtag]. *)
Theorem get_xsboard_first_responding id s :
  exists s',
    get_xsboard hw (Some id) "" s
    = (Ok (Some {| cls := first_responding
                            (reads_below_1_2 (nth 3 info 0) (nth 4 info 0))
                            answers;
                   xsusb_id := id |}),
       s').
Proof.
  change (get_xsboard hw (Some id) "" s) with (probe hw id board_classes s).
  unfold board_classes, first_responding.
  destruct (probe_responsive id XulaOldFmw
              [Xula50; Xula200; Xula2lx25; Xula2lx9; XulaNoJtag] s)
    as [b0 [s0 [E0 [Hold _]]]].
  specialize (Hold eq_refl). rewrite E0, <- Hold. clear E0.
  destruct b0; [now exists s0|].
  assert (Hstep : forall k c cs s1,
             fpga c = Some k ->
             exists s2,
               probe hw id (c :: cs) s1
               = if answers k
                 then (Ok (Some {| cls := c; xsusb_id := id |}), s2)
                 else probe hw id cs s2).
  { intros k c cs s1 Hk.
    rewrite probe_cons.
    destruct (construct_responsive c id s1) as [s2 Hc]. rewrite Hc.
    destruct (get_board_fmw_version_bytes hw s2 _ _ _
                (fetch_info_responsive s2) Hsum Hdesc Hmajor Hminor)
      as [v [Hv Hlt]].
    assert (Hi : is_connected hw {| cls := c; xsusb_id := id |} s2
                 = (Ok (answers k),
                    log (fpga_is_connected k) (after_fetch s2))).
    { destruct c; try discriminate Hk; cbn [fpga] in Hk;
        injection Hk as <-; unfold is_connected; cbn [cls];
        unfold XulaMicro_is_connected;
        rewrite with_version_eq, Hv, Hlt, <- Hold; cbn [cls fpga];
        unfold fpga_connected; now rewrite Hquiet, Hfpga. }
    rewrite Hi. exists (log (fpga_is_connected k) (after_fetch s2)).
    now destruct (answers k). }
  destruct (Hstep _ Xula50 [Xula200; Xula2lx25; Xula2lx9; XulaNoJtag] s0
              eq_refl) as [s1 E1].
  rewrite E1. destruct (answers Xc3s50avq100); [now exists s1|].
  destruct (Hstep _ Xula200 [Xula2lx25; Xula2lx9; XulaNoJtag] s1 eq_refl)
    as [s2 E2].
  rewrite E2. destruct (answers Xc3s200avq100); [now exists s2|].
  destruct (Hstep _ Xula2lx25 [Xula2lx9; XulaNoJtag] s2 eq_refl) as [s3 E3].
  rewrite E3. destruct (answers Xc6slx25ftg256); [now exists s3|].
  destruct (Hstep _ Xula2lx9 [XulaNoJtag] s3 eq_refl) as [s4 E4].
  rewrite E4. destruct (answers Xc6slx9ftg256); [now exists s4|].
  destruct (probe_responsive id XulaNoJtag [] s4) as [b [s5 [E [_ Hno]]]].
  specialize (Hno eq_refl). rewrite <- Hold in Hno. subst b.
  now exists s5.
Qed.

End Responsive.

Lemma get_xsboard_first_responding_witness :
  (exists s',
      get_xsboard (bench no_fault sample_info healthy_dut) (Some 0) ""
        (initial_state 0)
      = (Ok (Some {| cls := Xula2lx25; xsusb_id := 0 |}), s'))
  /\
  (exists s',
      get_xsboard no_jtag_bench (Some 0) "" (initial_state 0)
      = (Ok (Some {| cls := XulaNoJtag; xsusb_id := 0 |}), s')).
Proof.
  split.
  - apply (get_xsboard_first_responding
             (bench no_fault sample_info healthy_dut) sample_info 2%nat)
      with (answers := fun k => match k with
                                | Xc6slx25ftg256 => true
                                | _ => false
                                end).
    + intros n c. reflexivity.
    + intros n. reflexivity.
    + reflexivity.
    + reflexivity.
    + unfold is_byte. cbn. lia.
    + unfold is_byte. cbn. lia.
    + intros n k. reflexivity.
  - apply (get_xsboard_first_responding no_jtag_bench sample_info 2%nat)
      with (answers := fun _ => false).
    + intros n c. reflexivity.
    + intros n. reflexivity.
    + reflexivity.
    + reflexivity.
    + unfold is_byte. cbn. lia.
    + unfold is_byte. cbn. lia.
    + intros n k. reflexivity.
Defined.

(** ** More on the self-test *)

Lemma after_polls_0 (s : state) : after_polls s 0 = s.
Proof.
  destruct s. unfold after_polls. cbn.
  now rewrite app_nil_r, Nat.add_0_r.
Qed.

Lemma after_polls_S (s : state) (m : nat) :
  after_polls (after_poll s) m = after_polls s (S m).
Proof.
  unfold after_polls, after_poll. cbn [trace fetches polls cfg_flash_flag].
  rewrite <- app_assoc. cbn [app repeat]. f_equal. lia.
Qed.

(** X10: polls that show the expected signature and the progress value
    of the poll before are passed over in silence: after [m] of them the
    loop stands where it stood, [m] reads later, with nothing published
    and its memory of the progress unchanged, whatever the [failed] field
    said. *)
Theorem poll_steady hw self prev fuel m : forall s,
  (forall k, (k < m)%nat ->
     hw_fault hw (List.length (trace s) + k) dut_read = None /\
     signature (hw_dut hw (polls s + k)) = SELF_TEST_SIGNATURE /\
     progress (hw_dut hw (polls s + k)) = prev) ->
  poll hw self (m + fuel) prev s = poll hw self fuel prev (after_polls s m).
Proof.
  induction m as [|m IH]; intros s H.
  - now rewrite after_polls_0.
  - destruct (H O ltac:(lia)) as [Hr [Hsig Hprog]].
    rewrite !Nat.add_0_r in *.
    change (S m + fuel)%nat with (S (m + fuel)).
    rewrite (poll_S _ _ _ _ _ Hr). cbv zeta.
    rewrite Hsig, Hprog, !Z.eqb_refl. cbn [negb].
    rewrite IH; [now rewrite after_polls_S|].
    intros k Hk. destruct (H (S k) ltac:(lia)) as [H1 [H2 H3]].
    unfold after_poll. cbn [trace polls].
    rewrite length_app. cbn [List.length].
    replace (List.length (trace s) + 1 + k)%nat
      with (List.length (trace s) + S k)%nat by lia.
    replace (S (polls s) + k)%nat with (polls s + S k)%nat by lia.
    auto.
Qed.

Lemma poll_steady_witness :
  poll (bench no_fault sample_info slow_write_dut)
    {| cls := Xula50; xsusb_id := 0 |} (3 + 2) TEST_WRITE
    (after_poll (initial_state 0))
  = poll (bench no_fault sample_info slow_write_dut)
      {| cls := Xula50; xsusb_id := 0 |} 2 TEST_WRITE
      (after_polls (after_poll (initial_state 0)) 3).
Proof.
  apply (poll_steady (bench no_fault sample_info slow_write_dut)
           {| cls := Xula50; xsusb_id := 0 |} TEST_WRITE 2 3
           (after_poll (initial_state 0))).
  intros k Hk.
  destruct k as [|[|[|k]]]; [repeat split; reflexivity ..|lia].
Defined.

(** X11: the loop of [do_self_test] publishes "Test Done" at most once,
    and then as its last call: either it is never published and the test
    has not passed, or it is the last thing the loop does and the run ends
    with success or with the recoverable "failed diagnostic test.". *)
Theorem poll_Test_Done hw self fuel : forall prev s r s',
  poll hw self fuel prev s = (r, s') ->
  exists t,
    trace s' = (trace s ++ t)%list /\
    ((~ In Test_Done t /\ r <> Ok tt) \/
     (exists t0,
         t = (t0 ++ [Test_Done])%list /\
         ~ In Test_Done t0 /\
         (r = Ok tt \/
          r = Raise (XsMinorError
                       (name (cls self) ++ " failed diagnostic test."))))).
Proof.
  induction fuel as [|fuel IH]; intros prev s r s' H.
  - injection H as <- <-. exists []. rewrite app_nil_r.
    split; [reflexivity|]. left. split; [intros []|discriminate].
  - destruct (hw_fault hw (List.length (trace s)) dut_read) as [e|] eqn:Hr.
    { rewrite (poll_S_fault _ _ _ _ _ _ Hr) in H. injection H as <- <-.
      exists [dut_read]. split; [reflexivity|]. left.
      split; [|discriminate]. intros [E|[]]. discriminate E. }
    rewrite (poll_S _ _ _ _ _ Hr) in H. cbv zeta in H.
    set (fr := hw_dut hw (polls s)) in *.
    assert (Hrec : forall p s1,
               trace s1 = (trace s ++ p)%list ->
               ~ In Test_Done p ->
               poll hw self fuel (progress fr) s1 = (r, s') ->
               exists t,
                 trace s' = (trace s ++ t)%list /\
                 ((~ In Test_Done t /\ r <> Ok tt) \/
                  (exists t0,
                      t = (t0 ++ [Test_Done])%list /\
                      ~ In Test_Done t0 /\
                      (r = Ok tt \/
                       r = Raise (XsMinorError
                                    (name (cls self)
                                     ++ " failed diagnostic test.")))))).
    { intros p s1 Hp Hnp Hpoll.
      destruct (IH _ _ _ _ Hpoll) as [t [Ht Hcase]].
      exists (p ++ t)%list. rewrite Ht, Hp, app_assoc.
      split; [reflexivity|].
      destruct Hcase as [[Hn Hne]|[t0 [-> [Hn Hres]]]].
      - left. split; [|exact Hne]. rewrite in_app_iff. tauto.
      - right. exists (p ++ t0)%list. rewrite app_assoc.
        split; [reflexivity|]. split; [|exact Hres].
        rewrite in_app_iff. tauto. }
    assert (Hread : ~ In Test_Done [dut_read])
      by (intros [E|[]]; discriminate E).
    assert (Hread2 : ~ In Test_Done
                       [dut_read; pub_sendMessage "Reading SDRAM"])
      by (intros [E|[E|[]]]; discriminate E).
    destruct (negb (signature fr =? SELF_TEST_SIGNATURE)).
    { injection H as <- <-. exists [dut_read].
      split; [reflexivity|]. left. split; [exact Hread|discriminate]. }
    destruct (negb (progress fr =? prev));
      [|exact (Hrec [dut_read] (after_poll s) eq_refl Hread H)].
    destruct (progress fr =? TEST_READ).
    + destruct (failed fr =? 1); [|destruct (progress fr =? TEST_DONE)].
      * injection H as <- <-.
        exists ([dut_read; pub_sendMessage "Reading SDRAM"] ++ [Test_Done])%list.
        split; [cbn; now rewrite <- !app_assoc|].
        right. eexists. split; [reflexivity|]. split; [exact Hread2|now right].
      * injection H as <- <-.
        exists ([dut_read; pub_sendMessage "Reading SDRAM"] ++ [Test_Done])%list.
        split; [cbn; now rewrite <- !app_assoc|].
        right. eexists. split; [reflexivity|]. split; [exact Hread2|now left].
      * refine (Hrec [dut_read; pub_sendMessage "Reading SDRAM"] _ _ Hread2 H).
        cbn. now rewrite <- app_assoc.
    + destruct (failed fr =? 1); [|destruct (progress fr =? TEST_DONE)].
      * injection H as <- <-.
        exists ([dut_read] ++ [Test_Done])%list.
        split; [cbn; now rewrite <- !app_assoc|].
        right. eexists. split; [reflexivity|]. split; [exact Hread|now right].
      * injection H as <- <-.
        exists ([dut_read] ++ [Test_Done])%list.
        split; [cbn; now rewrite <- !app_assoc|].
        right. eexists. split; [reflexivity|]. split; [exact Hread|now left].
      * exact (Hrec [dut_read] (after_poll s) eq_refl Hread H).
Qed.

Lemma poll_Test_Done_witness :
  exists t,
    trace (snd (poll (bench no_fault sample_info healthy_dut)
                  {| cls := Xula50; xsusb_id := 0 |} 9 TEST_START
                  (initial_state 0)))
    = ([] ++ t)%list /\
    ((~ In Test_Done t /\ @Ok unit tt <> Ok tt) \/
     (exists t0,
         t = (t0 ++ [Test_Done])%list /\
         ~ In Test_Done t0 /\
         (@Ok unit tt = Ok tt \/
          Ok tt = Raise (XsMinorError "XuLA-50 failed diagnostic test.")))).
Proof.
  exact (poll_Test_Done (bench no_fault sample_info healthy_dut)
           {| cls := Xula50; xsusb_id := 0 |} 9 TEST_START (initial_state 0)
           (Ok tt) _ eq_refl).
Defined.

(** ** More on the flash workflows *)

Lemma says_only_ret {A} P (a : A) : says_only P (ret a).
Proof. intros s. exists []. now rewrite extend_nil. Qed.

Lemma says_only_raise {A} P (e : exn) : says_only P (@raise A e).
Proof. intros s. exists []. now rewrite extend_nil. Qed.

Lemma says_only_bind {A B} P (m : M A) (k : A -> M B) :
  says_only P m -> (forall a, says_only P (k a)) -> says_only P (bind m k).
Proof.
  intros Hm Hk s. unfold bind.
  destruct (Hm s) as [t [Ht Hp]].
  destruct (m s) as [[a|e|] s1]; cbn [snd] in Ht; subst.
  - destruct (Hk a (extend s t)) as [t' [Ht' Hp']].
    exists (t ++ t')%list. rewrite Ht', extend_extend, forallb_app, Hp, Hp'.
    now split.
  - now exists t.
  - now exists t.
Qed.

Lemma says_only_extcall hw P c : P c = true -> says_only P (extcall hw c).
Proof.
  intros Hc s. exists [c]. unfold extcall.
  destruct (hw_fault hw _ c); cbn; now rewrite Hc.
Qed.

Lemma says_only_sendMessage P phase :
  P (pub_sendMessage phase) = true -> says_only P (sendMessage phase).
Proof. intros Hc s. exists [pub_sendMessage phase]. cbn. now rewrite Hc. Qed.

Lemma says_only_sleep P : P time_sleep = true -> says_only P sleep.
Proof. intros Hc s. exists [time_sleep]. cbn. now rewrite Hc. Qed.

Lemma says_only_getattr {A} P attr (v : option A) :
  says_only P (getattr attr v).
Proof. destruct v; [apply says_only_ret|apply says_only_raise]. Qed.

Ltac says_only_tac :=
  repeat first
    [ apply says_only_ret | apply says_only_raise | apply says_only_getattr
    | apply says_only_extcall; reflexivity
    | apply says_only_sendMessage; reflexivity
    | apply says_only_sleep; reflexivity
    | apply says_only_bind; [|intros ?] ].

(** X12: on a XuLA2 board the three configuration-flash workflows never
    call the microcontroller about the flash-enable flag and never change
    it, whether they return or raise: all they leave behind is a longer
    trace. *)
Theorem Xula2_cfg_flash_leaves_flag hw self s :
  is_Xula2 (cls self) = true ->
  let no_micro := fun c => negb (is_micro_call c) in
  (forall bottom top,
      exists t,
        snd (read_cfg_flash hw self bottom top s) = extend s t /\
        forallb no_micro t = true)
  /\
  (forall hexfile bottom top,
      exists t,
        snd (write_cfg_flash hw self hexfile bottom top s) = extend s t /\
        forallb no_micro t = true)
  /\
  (forall bottom top,
      exists t,
        snd (erase_cfg_flash hw self bottom top s) = extend s t /\
        forallb no_micro t = true).
Proof.
  intros HX no_micro.
  assert (Hr : forall bottom top,
             says_only no_micro (XulaBase_read_cfg_flash hw self bottom top)).
  { intros. unfold XulaBase_read_cfg_flash, configure, create_cfg_flash,
      flash_read. says_only_tac. }
  assert (Hw : forall hexfile bottom top,
             says_only no_micro
               (XulaBase_write_cfg_flash hw self hexfile bottom top)).
  { intros. unfold XulaBase_write_cfg_flash, configure, create_cfg_flash.
    says_only_tac. }
  assert (He : forall bottom top,
             says_only no_micro (XulaBase_erase_cfg_flash hw self bottom top)).
  { intros. unfold XulaBase_erase_cfg_flash, configure, create_cfg_flash.
    says_only_tac. }
  unfold read_cfg_flash, write_cfg_flash, erase_cfg_flash.
  destruct (cls self); try discriminate HX;
    (split; [|split]); intros; first [apply Hr|apply Hw|apply He].
Qed.

Lemma Xula2_cfg_flash_leaves_flag_witness :
  exists t,
    snd (read_cfg_flash (bench flash_fails sample_info healthy_dut)
           {| cls := Xula2lx9; xsusb_id := 0 |} 0 256 (initial_state 0))
    = extend (initial_state 0) t /\
    forallb (fun c => negb (is_micro_call c)) t = true.
Proof.
  destruct (Xula2_cfg_flash_leaves_flag
              (bench flash_fails sample_info healthy_dut)
              {| cls := Xula2lx9; xsusb_id := 0 |} (initial_state 0) eq_refl)
    as [Hread _].
  exact (Hread 0 256).
Defined.

(** X13: [XulaBase.write_cfg_flash] never writes to a flash it has not
    just erased: a write call in its trace comes right after the erase of
    the whole flash and the "Writing configuration flash" message, and
    that erase did not raise. *)
Theorem write_cfg_flash_erases_first hw self hexfile bottom top s :
  exists tr,
    trace (snd (XulaBase_write_cfg_flash hw self hexfile bottom top s))
    = (trace s ++ tr)%list /\
    (forall c, In c tr -> is_cfg_flash_write c = true ->
       exists before after,
         tr = (before
                 ++ [cfg_flash_erase;
                     pub_sendMessage "Writing configuration flash"; c]
                 ++ after)%list /\
         hw_fault hw (List.length (trace s ++ before)) cfg_flash_erase = None).
Proof.
  unfold XulaBase_write_cfg_flash, configure, create_cfg_flash, bind,
    sendMessage, sleep, extcall, getattr, ret, raise.
  cbn [log trace fetches polls cfg_flash_flag].
  destruct (cfg_flash_bitstream hw (cls self)) as [bs|].
  2:{ cbn. eexists. split; [reflexivity|].
      intros c [E|[]] Hc. subst c. discriminate. }
  repeat match goal with
    | |- context [hw_fault hw ?n ?c] =>
        lazymatch goal with
        | |- context [match hw_fault hw n c with _ => _ end] =>
            let E := fresh "E" in
            destruct (hw_fault hw n c) eqn:E;
            cbn [log trace fetches polls cfg_flash_flag fst snd]
        end
    | |- context [match fpga ?c with _ => _ end] =>
        destruct (fpga c);
        cbn [log trace fetches polls cfg_flash_flag fst snd]
    end.
  all: repeat match goal with
         | E : hw_fault _ _ _ = _ |- _ =>
             progress (cbn [log trace] in E; rewrite <- ?app_assoc in E;
                       cbn [app] in E)
         end.
  all: rewrite <- ?app_assoc; cbn [app].
  all: eexists; (split; [reflexivity|]); intros c Hin Hc; cbn [In] in Hin.
  all: repeat (destruct Hin as [<-|Hin]; [try discriminate Hc|]);
    try contradiction.
  all: eexists [_; _; _; _; _; _; _; _; _; _], _;
    (split; [reflexivity|assumption]).
Qed.

(** The same run when the erase times out: no write. *)
Example write_cfg_flash_erase_fails :
  trace (snd (write_cfg_flash (bench erase_fails sample_info healthy_dut)
                {| cls := Xula2lx25; xsusb_id := 0 |} [1; 2; 3] None None
                (initial_state 0)))
  = [pub_sendMessage "Configuring FPGA for writing configuration flash";
     pub_sendMessage "Downloading bitstream";
     xsusb_set_prog 1; xsusb_set_prog 0; xsusb_set_prog 1; time_sleep;
     fpga_configure Xc6slx25ftg256 "/opt/xstools/xula2/fintf_jtag_lx25.bit";
     pub_sendMessage "Download complete";
     pub_sendMessage "Erasing configuration flash";
     W25X_new 2; cfg_flash_erase].
Proof. reflexivity. Qed.

Lemma set_cfg_flash_flag_unit hw flag s0 :
  set_cfg_flash_flag hw flag s0
  = match set_cfg_flash_flag hw flag s0 with
    | (Ok _, s1) => (Ok tt, s1)
    | (Raise e, s1) => (Raise e, s1)
    | (OutOfFuel, s1) => (OutOfFuel, s1)
    end.
Proof.
  destruct (set_cfg_flash_flag hw flag s0) as [[[]|e|] s1]; reflexivity.
Qed.

(** A workflow of [Xula] that returns leaves the flag cell as it found
    it. *)
Lemma Xula_workflow_restores hw self s s' :
  (exists bottom top data,
      Xula_read_cfg_flash hw self bottom top s = (Ok data, s')) \/
  (exists hexfile bottom top,
      Xula_write_cfg_flash hw self hexfile bottom top s = (Ok tt, s')) \/
  (exists bottom top,
      Xula_erase_cfg_flash hw self bottom top s = (Ok tt, s')) ->
  cfg_flash_flag s' = cfg_flash_flag s.
Proof.
  intros [[bottom [top [data H]]]|[[hexfile [bottom [top H]]]|[bottom [top H]]]].
  - refine (proj1 (proj1 (bracket_shape hw
                            (XulaBase_read_cfg_flash hw self bottom top)
                            (fun data flag =>
                               bind (set_cfg_flash_flag hw flag)
                                 (fun _ => ret data)) s _ _) data s' H)).
    + apply only_logs_XulaBase_read_cfg_flash.
    + intros a flag s0. unfold bind, ret.
      destruct (set_cfg_flash_flag hw flag s0) as [[[]|e|] s1]; reflexivity.
  - refine (proj1 (proj1 (bracket_shape hw
                            (XulaBase_write_cfg_flash hw self hexfile
                               bottom top)
                            (fun _ flag => set_cfg_flash_flag hw flag)
                            s _ _) tt s' H)).
    + apply only_logs_XulaBase_write_cfg_flash.
    + intros [] flag s0. apply set_cfg_flash_flag_unit.
  - refine (proj1 (proj1 (bracket_shape hw
                            (XulaBase_erase_cfg_flash hw self bottom top)
                            (fun _ flag => set_cfg_flash_flag hw flag)
                            s _ _) tt s' H)).
    + apply only_logs_XulaBase_erase_cfg_flash.
    + intros [] flag s0. apply set_cfg_flash_flag_unit.
Qed.

(** X14: a configuration-flash workflow that returns does not change what
    [get_flash_flag] answers: asked before and after a read, a write or an
    erase, on a XuLA as on a XuLA2, it gives the same answer. *)
Theorem get_flash_flag_kept hw self s s' b s1 b' s2 :
  (exists bottom top data,
      read_cfg_flash hw self bottom top s = (Ok data, s')) \/
  (exists hexfile bottom top,
      write_cfg_flash hw self hexfile bottom top s = (Ok tt, s')) \/
  (exists bottom top,
      erase_cfg_flash hw self bottom top s = (Ok tt, s')) ->
  get_flash_flag hw self s = (Ok b, s1) ->
  get_flash_flag hw self s' = (Ok b', s2) ->
  b' = b.
Proof.
  unfold read_cfg_flash, write_cfg_flash, erase_cfg_flash, get_flash_flag.
  intros H H1 H2.
  assert (HX : forall (flag : Z),
             cfg_flash_flag s' = cfg_flash_flag s ->
             XulaMicro_get_flash_flag hw s = (Ok b, s1) ->
             XulaMicro_get_flash_flag hw s' = (Ok b', s2) ->
             b' = b).
  { intros _ Hflag G1 G2.
    unfold XulaMicro_get_flash_flag, bind, get_cfg_flash_flag, ret in G1, G2.
    destruct (hw_fault hw (List.length (trace s)) micro_get_cfg_flash_flag);
      [discriminate|].
    destruct (hw_fault hw (List.length (trace s')) micro_get_cfg_flash_flag);
      [discriminate|].
    injection G1 as <- _. injection G2 as <- _. now rewrite Hflag. }
  destruct (cls self).
  - destruct H as [[? [? [? H]]]|[[? [? [? H]]]|[? [? H]]]]; discriminate H.
  - exact (HX 0 (Xula_workflow_restores _ _ _ _ H) H1 H2).
  - exact (HX 0 (Xula_workflow_restores _ _ _ _ H) H1 H2).
  - unfold Xula2_get_flash_flag, ret in H1, H2. congruence.
  - unfold Xula2_get_flash_flag, ret in H1, H2. congruence.
  - destruct H as [[? [? [? H]]]|[[? [? [? H]]]|[? [? H]]]]; discriminate H.
Qed.

Lemma get_flash_flag_kept_witness :
  fst (get_flash_flag (bench no_fault sample_info healthy_dut)
         {| cls := Xula200; xsusb_id := 0 |}
         (snd (erase_cfg_flash (bench no_fault sample_info healthy_dut)
                 {| cls := Xula200; xsusb_id := 0 |} None None
                 (initial_state 5))))
  = fst (get_flash_flag (bench no_fault sample_info healthy_dut)
           {| cls := Xula200; xsusb_id := 0 |} (initial_state 5)).
Proof.
  exact (f_equal Ok
           (get_flash_flag_kept (bench no_fault sample_info healthy_dut)
              {| cls := Xula200; xsusb_id := 0 |} (initial_state 5)
              _ true _ true _
              (or_intror (or_intror
                 (ex_intro _ None (ex_intro _ None eq_refl))))
              eq_refl eq_refl)).
Defined.

(** ** The probing loop, descriptor by descriptor *)

Lemma probe_attempt hw id c cs s :
  probe hw id (c :: cs) s
  = match attempt hw id c s with
    | (Ok true, s1) => (Ok (Some {| cls := c; xsusb_id := id |}), s1)
    | (Ok false, s1) => probe hw id cs s1
    | (Raise e, s1) =>
        if isinstance_XsError e then probe hw id cs s1 else (Raise e, s1)
    | (OutOfFuel, s1) => (OutOfFuel, s1)
    end.
Proof.
  rewrite probe_cons. unfold attempt, bind.
  destruct (construct hw c id s) as [[x|e|] s1] eqn:Hc; try reflexivity.
  rewrite (construct_Ok _ _ _ _ _ _ Hc).
  destruct (is_connected hw {| cls := c; xsusb_id := id |} s1)
    as [[[|]|e|] s2]; reflexivity.
Qed.

(** Descriptors that are "not this variant" are passed. *)
Lemma probe_skipped hw id pre rest s s1 :
  skipped hw id pre s s1 ->
  probe hw id (pre ++ rest) s = probe hw id rest s1.
Proof.
  induction 1 as [s|c cs s s1 s2 Ha _ IH|c cs s e s1 s2 Ha He _ IH].
  - reflexivity.
  - cbn [app]. now rewrite probe_attempt, Ha.
  - cbn [app]. now rewrite probe_attempt, Ha, He.
Qed.

(** Whatever the probing loop ends with, it got there descriptor by
    descriptor. *)
Lemma probe_inv hw id : forall cs s r s',
  probe hw id cs s = (r, s') ->
  match r with
  | Ok (Some x) =>
      exists pre post s1,
        cs = (pre ++ cls x :: post)%list /\
        xsusb_id x = id /\
        skipped hw id pre s s1 /\
        attempt hw id (cls x) s1 = (Ok true, s')
  | Ok None => skipped hw id cs s s'
  | Raise e =>
      isinstance_XsError e = false /\
      exists pre c post s1,
        cs = (pre ++ c :: post)%list /\
        skipped hw id pre s s1 /\
        attempt hw id c s1 = (Raise e, s')
  | OutOfFuel => True
  end.
Proof.
  induction cs as [|c cs IH]; intros s r s' H.
  - injection H as <- <-. constructor.
  - rewrite probe_attempt in H.
    assert (Hgo : forall s1,
               skipped hw id [c] s s1 ->
               probe hw id cs s1 = (r, s') ->
               match r with
               | Ok (Some x) =>
                   exists pre post s2,
                     (c :: cs) = (pre ++ cls x :: post)%list /\
                     xsusb_id x = id /\
                     skipped hw id pre s s2 /\
                     attempt hw id (cls x) s2 = (Ok true, s')
               | Ok None => skipped hw id (c :: cs) s s'
               | Raise e =>
                   isinstance_XsError e = false /\
                   exists pre c0 post s2,
                     (c :: cs) = (pre ++ c0 :: post)%list /\
                     skipped hw id pre s s2 /\
                     attempt hw id c0 s2 = (Raise e, s')
               | OutOfFuel => True
               end).
    { intros s1 Hc Hrest. specialize (IH _ _ _ Hrest).
      assert (Hpre : forall pre s2,
                 skipped hw id pre s1 s2 -> skipped hw id (c :: pre) s s2).
      { intros pre s2 Hs.
        inversion Hc as [|? ? ? ? ? Ha Hn|? ? ? ? ? ? Ha He Hn]; subst;
          inversion Hn; subst;
          [eapply skipped_False|eapply skipped_XsError]; eauto. }
      destruct r as [[x|]|e|]; [| | |exact I].
      - destruct IH as [pre [post [s2 [-> [Hid [Hs Ha]]]]]].
        exists (c :: pre), post, s2. auto.
      - auto.
      - destruct IH as [He [pre [c0 [post [s2 [-> [Hs Ha]]]]]]].
        split; [exact He|]. exists (c :: pre), c0, post, s2. auto. }
    destruct (attempt hw id c s) as [[[|]|e|] s1] eqn:Ha.
    + injection H as <- <-.
      exists [], cs, s. repeat split; auto. constructor.
    + apply (Hgo s1); [|exact H].
      eapply skipped_False; [exact Ha|constructor].
    + destruct (isinstance_XsError e) eqn:He.
      * apply (Hgo s1); [|exact H].
        eapply skipped_XsError; [exact Ha|exact He|constructor].
      * injection H as <- <-. split; [exact He|].
        exists [], c, cs, s. repeat split; auto. constructor.
    + injection H as <- <-. exact I.
Qed.

(** C10: a name that is no descriptor's name, up to case, is neither
    reported nor answered with [None] at once: [get_xsboard] runs the
    probing loop over the whole priority list.  It returns a board exactly
    when every descriptor before that board's class was tried and was "not
    this variant" and the board's own connectivity check answered [True];
    the board need not be of the variant that was named.  It returns
    [None] exactly when all six descriptors were tried and none was there.
    It raises exactly when a descriptor, reached in the same way, raised
    something that is no [XsError]. *)
Theorem get_xsboard_unknown_name_probes hw id nm s :
  (forall c, In c board_classes -> lower nm <> lower (name c)) ->
  get_xsboard hw (Some id) nm s = probe hw id board_classes s
  /\
  (forall x s',
      get_xsboard hw (Some id) nm s = (Ok (Some x), s') <->
      exists pre post s1,
        board_classes = (pre ++ cls x :: post)%list /\
        xsusb_id x = id /\
        skipped hw id pre s s1 /\
        attempt hw id (cls x) s1 = (Ok true, s'))
  /\
  (forall s',
      get_xsboard hw (Some id) nm s = (Ok None, s') <->
      skipped hw id board_classes s s')
  /\
  (forall e s',
      get_xsboard hw (Some id) nm s = (Raise e, s') <->
      isinstance_XsError e = false /\
      exists pre c post s1,
        board_classes = (pre ++ c :: post)%list /\
        skipped hw id pre s s1 /\
        attempt hw id c s1 = (Raise e, s')).
Proof.
  intros Hno.
  assert (Heq : get_xsboard hw (Some id) nm s = probe hw id board_classes s).
  { unfold get_xsboard. now rewrite (select_by_name_no_match _ _ _ _ _ Hno). }
  rewrite Heq. split; [reflexivity|]. split; [|split].
  - intros x s'. split.
    + intros H. exact (probe_inv _ _ _ _ _ _ H).
    + intros [pre [post [s1 [-> [Hid [Hs Ha]]]]]].
      rewrite (probe_skipped _ _ _ _ _ _ Hs), probe_attempt, Ha.
      destruct x as [c i]. cbn [cls xsusb_id] in *. now subst i.
  - intros s'. split.
    + intros H. exact (probe_inv _ _ _ _ _ _ H).
    + intros Hs. rewrite <- (app_nil_r board_classes).
      now rewrite (probe_skipped _ _ _ _ _ _ Hs).
  - intros e s'. split.
    + intros H. exact (probe_inv _ _ _ _ _ _ H).
    + intros [He [pre [c [post [s1 [-> [Hs Ha]]]]]]].
      now rewrite (probe_skipped _ _ _ _ _ _ Hs), probe_attempt, Ha, He.
Qed.

(** Asked for a "XuLA-100": with a XuLA2-LX25 plugged in, that board is
    returned once the three descriptors before it have been tried; with
    nothing plugged in, [None] is returned once all six have been. *)
Lemma get_xsboard_unknown_name_probes_witness :
  (exists s',
      get_xsboard (bench no_fault sample_info healthy_dut) (Some 0)
        "XuLA-100" (initial_state 0)
      = (Ok (Some {| cls := Xula2lx25; xsusb_id := 0 |}), s') /\
      List.length (trace s') = 22%nat)
  /\
  (exists s',
      get_xsboard (bench unplugged sample_info healthy_dut) (Some 0)
        "XuLA-100" (initial_state 0)
      = (Ok None, s') /\
      List.length (trace s') = 34%nat).
Proof.
  assert (Hno : forall c, In c board_classes ->
                          lower "XuLA-100" <> lower (name c))
    by (intros c _; destruct c; vm_compute; discriminate).
  split.
  - destruct (get_xsboard_unknown_name_probes
                (bench no_fault sample_info healthy_dut) 0 "XuLA-100"
                (initial_state 0) Hno) as [_ [HSome _]].
    eexists. split.
    + apply HSome.
      exists [XulaOldFmw; Xula50; Xula200], [Xula2lx9; XulaNoJtag].
      eexists. split; [reflexivity|]. split; [reflexivity|]. split.
      * eapply skipped_False; [vm_compute; reflexivity|].
        eapply skipped_False; [vm_compute; reflexivity|].
        eapply skipped_False; [vm_compute; reflexivity|].
        apply skipped_nil.
      * vm_compute. reflexivity.
    + reflexivity.
  - destruct (get_xsboard_unknown_name_probes
                (bench unplugged sample_info healthy_dut) 0 "XuLA-100"
                (initial_state 0) Hno) as [_ [_ [HNone _]]].
    eexists. split.
    + apply HNone. unfold board_classes.
      eapply skipped_False; [vm_compute; reflexivity|].
      eapply skipped_False; [vm_compute; reflexivity|].
      eapply skipped_False; [vm_compute; reflexivity|].
      eapply skipped_False; [vm_compute; reflexivity|].
      eapply skipped_False; [vm_compute; reflexivity|].
      eapply skipped_False; [vm_compute; reflexivity|].
      apply skipped_nil.
    + reflexivity.
Defined.
